(** * Verification of the 3D page handler of flight_review

    Shallow embedding of [ThreeDHandler.get] from
    [tornado_handlers/three_d.py]: the extraction of telemetry streams from
    a ULog, the takeoff estimate, the UTC time base, the per-stream
    serialisation into arrays of records, and the choice of the 3D model.

    Numbers are modelled as the interpreter has them: integers as [Z],
    floating-point values as IEEE-754 binary64 ([spec_float] with precision
    53), so that a product such as [lon * 1.e-7] and the text produced by
    ['{:.10f}'] are computed bit for bit. Integer samples come from numpy
    arrays of at most 64 bits. The [timestamp] field of a topic is a uint64
    array, and a device timestamp plus the UTC offset is a uint64 scalar
    plus a Python integer, under the promotion rules of NumPy 2 (NEP 50):
    the integer must fit uint64 and the sum wraps at [2^64]. *)

From Stdlib Require Import ZArith List Bool Ascii String Lia.
From Stdlib Require Import SpecFloat DecimalString.
From stdpp Require Import gmap strings.

Local Open Scope Z_scope.

(** ** Python exceptions and the error monad *)

Inductive exn : Type :=
  | KeyError
  | IndexError
  | ValueError
  | TypeError
  | OverflowError
  | OSError
  | UnboundLocalError.

Inductive result (A : Type) : Type :=
  | Ok (a : A)
  | Raise (e : exn).

Arguments Ok {A} a.
Arguments Raise {A} e.

Definition bind {A B : Type} (r : result A) (k : A -> result B) : result B :=
  match r with
  | Ok a => k a
  | Raise e => Raise e
  end.

Notation "'let*' x ':=' r 'in' k" := (bind r (fun x => k))
  (at level 10, x name, r at level 100, k at level 200).

(** [for x in xs: body] where the body yields one value or raises: the
    values are collected in iteration order, the first exception stops
    the loop. *)
Fixpoint for_each {A B : Type} (body : A -> result B) (xs : list A)
  : result (list B) :=
  match xs with
  | [] => Ok []
  | x :: xs' =>
      let* b := body x in
      let* bs := for_each body xs' in
      Ok (b :: bs)
  end.

(** [range(n)] *)
Definition range (n : nat) : list nat := seq 0 n.

(** ** Binary64 arithmetic *)

Module Float.

Definition prec : Z := 53.
Definition emax : Z := 1024.

(** [float(z)], correctly rounded. *)
Definition of_Z (z : Z) : spec_float := binary_normalize prec emax z 0 false.

Definition mul : spec_float -> spec_float -> spec_float := SFmul prec emax.
Definition div : spec_float -> spec_float -> spec_float := SFdiv prec emax.
Definition add : spec_float -> spec_float -> spec_float := SFadd prec emax.
Definition ltb : spec_float -> spec_float -> bool := SFltb.
Definition leb : spec_float -> spec_float -> bool := SFleb.

(** A decimal literal whose value is the fraction [num/den] of two
    integers below [2^53]: the nearest double, as the parser gives it. *)
Definition literal (num den : Z) : spec_float := div (of_Z num) (of_Z den).

(** The literals of the handler. *)
Definition lit_1e_3 : spec_float := literal 1 1000.
Definition lit_1e_7 : spec_float := literal 1 10000000.
Definition lit_1e6 : spec_float := of_Z 1000000.
Definition lit_0_06 : spec_float := literal 6 100.

(** A binary32 sample (the dtype of most telemetry fields), nearest to
    [num/den]; its value is kept exactly when it is widened. *)
Definition single (num den : Z) : spec_float :=
  SFdiv 24 128 (binary_normalize 24 128 num 0 false)
               (binary_normalize 24 128 den 0 false).

Definition is_finite (x : spec_float) : bool :=
  match x with
  | S754_zero _ | S754_finite _ _ _ => true
  | _ => false
  end.

Definition is_nan (x : spec_float) : bool :=
  match x with
  | S754_nan => true
  | _ => false
  end.

(** Nearest integer to [num/den], ties to even ([0 <= num], [0 < den]). *)
Definition round_half_even (num den : Z) : Z :=
  let q := num / den in
  match (2 * (num mod den) ?= den) with
  | Lt => q
  | Gt => q + 1
  | Eq => if Z.even q then q else q + 1
  end.

(** [|m * 2^e| * 10^p] rounded to the nearest integer, ties to even. *)
Definition scaled (p : nat) (m : positive) (e : Z) : Z :=
  let num := Z.pos m * 10 ^ Z.of_nat p in
  if 0 <=? e then num * 2 ^ e else round_half_even num (2 ^ (- e)).

End Float.

(** ** Text of numbers *)

Definition quote : string := String (ascii_of_nat 34) EmptyString.

Definition digit (d : Z) : ascii := ascii_of_nat (48 + Z.to_nat d).

(** The decimal numeral of a natural number, without padding. *)
Definition dec (n : Z) : string := NilZero.string_of_uint (N.to_uint (Z.to_N n)).

(** The last [w] decimal digits of [n], zero padded: ['%0wd'] for
    [0 <= n < 10^w]. *)
Fixpoint dec_pad (w : nat) (n : Z) : string :=
  match w with
  | O => EmptyString
  | S w' => dec_pad w' (n / 10) +:+ String (digit (n mod 10)) EmptyString
  end.

Definition sign_str (s : bool) : string := if s then "-"%string else EmptyString.

(** A scaled integer [n = round(|x| * 10^p)] printed with [p] decimals. *)
Definition fixed (p : nat) (n : Z) : string :=
  match p with
  | O => dec n
  | _ => dec (n / 10 ^ Z.of_nat p) +:+ "." +:+ dec_pad p (n mod 10 ^ Z.of_nat p)
  end.

(** ['{:.pf}'.format(x)] for a float [x]. *)
Definition format_f (p : nat) (x : spec_float) : string :=
  match x with
  | S754_nan => "nan"
  | S754_infinity s => sign_str s +:+ "inf"
  | S754_zero s => sign_str s +:+ fixed p 0
  | S754_finite s m e => sign_str s +:+ fixed p (Float.scaled p m e)
  end.

(** ** Calendar time: [datetime.utcfromtimestamp] and [isoformat] *)

Record datetime : Type := {
  year : Z; month : Z; day : Z;
  hour : Z; minute : Z; second : Z; microsecond : Z
}.

Module Time.

(** Integral and fractional part of a finite double, as [modf] splits
    it: the integral part is truncated towards zero, and both carry the
    sign of the argument. *)
Definition modf (s : bool) (m : positive) (e : Z) : Z * spec_float :=
  if 0 <=? e then (cond_Zopp s (Z.pos m * 2 ^ e), S754_zero s)
  else
    let ip := Z.pos m / 2 ^ (- e) in
    let fp := Z.pos m mod 2 ^ (- e) in
    (cond_Zopp s ip, binary_normalize Float.prec Float.emax (cond_Zopp s fp) e s).

(** A finite double rounded to the nearest integer, ties to even. *)
Definition round_even (x : spec_float) : Z :=
  match x with
  | S754_finite s m e =>
      cond_Zopp s
        (if 0 <=? e then Z.pos m * 2 ^ e
         else Float.round_half_even (Z.pos m) (2 ^ (- e)))
  | _ => 0
  end.

(** Seconds and microseconds of a float timestamp, rounded half to even,
    with [0 <= microseconds < 10^6]. *)
Definition to_timeval (x : spec_float) : result (Z * Z) :=
  match x with
  | S754_nan => Raise ValueError
  | S754_infinity _ => Raise OverflowError
  | S754_zero _ => Ok (0, 0)
  | S754_finite s m e =>
      let '(intpart, floatpart) := modf s m e in
      let us := round_even (Float.mul floatpart Float.lit_1e6) in
      let '(sec, us) :=
        if 1000000 <=? us then (intpart + 1, us - 1000000)
        else if us <? 0 then (intpart - 1, us + 1000000)
        else (intpart, us) in
      if (- 2 ^ 63 <=? sec) && (sec <? 2 ^ 63) then Ok (sec, us)
      else Raise OverflowError
  end.

(** Proleptic Gregorian date of a day number counted from 1970-01-01. *)
Definition civil_from_days (days : Z) : Z * Z * Z :=
  let z := days + 719468 in
  let era := z / 146097 in
  let doe := z - era * 146097 in
  let yoe := (doe - doe / 1460 + doe / 36524 - doe / 146096) / 365 in
  let doy := doe - (365 * yoe + yoe / 4 - yoe / 100) in
  let mp := (5 * doy + 2) / 153 in
  let d := doy - (153 * mp + 2) / 5 + 1 in
  let m := if mp <? 10 then mp + 3 else mp - 9 in
  let y := yoe + era * 400 + (if m <=? 2 then 1 else 0) in
  (y, m, d).

(** [datetime.datetime.utcfromtimestamp(x).replace(tzinfo=utc)]: the
    broken-down time must fit a C [struct tm], and the year must lie
    between 1 and 9999. *)
Definition utcfromtimestamp (x : spec_float) : result datetime :=
  let* tv := to_timeval x in
  let '(sec, us) := tv in
  let '(y, m, d) := civil_from_days (sec / 86400) in
  let rem := sec mod 86400 in
  if negb ((- 2 ^ 31 <=? y - 1900) && (y - 1900 <? 2 ^ 31)) then Raise OSError
  else if negb ((1 <=? y) && (y <=? 9999)) then Raise ValueError
  else Ok {| year := y; month := m; day := d;
             hour := rem / 3600; minute := rem mod 3600 / 60;
             second := rem mod 60; microsecond := us |}.

(** [isoformat()] of an aware datetime in UTC. *)
Definition isoformat (t : datetime) : string :=
  dec_pad 4 (year t) +:+ "-" +:+ dec_pad 2 (month t) +:+ "-" +:+
  dec_pad 2 (day t) +:+ "T" +:+ dec_pad 2 (hour t) +:+ ":" +:+
  dec_pad 2 (minute t) +:+ ":" +:+ dec_pad 2 (second t) +:+
  (if microsecond t =? 0 then EmptyString
   else "." +:+ dec_pad 6 (microsecond t)) +:+
  "+00:00".

End Time.

(** ** numpy scalars and arrays *)

Inductive scalar : Type :=
  | SInt (z : Z)
  | SFloat (x : spec_float).

Inductive ndarray : Type :=
  | IntArray (l : list Z)
  | FloatArray (l : list spec_float).

(** [len(a)] *)
Definition array_len (a : ndarray) : nat :=
  match a with
  | IntArray l => length l
  | FloatArray l => length l
  end.

(** [a[i]] for an index produced by [range]: [IndexError] past the end. *)
Definition getitem (a : ndarray) (i : nat) : result scalar :=
  match a with
  | IntArray l =>
      match l !! i with Some z => Ok (SInt z) | None => Raise IndexError end
  | FloatArray l =>
      match l !! i with Some x => Ok (SFloat x) | None => Raise IndexError end
  end.

(** The value of a scalar as a double (exact for a widened binary32). *)
Definition to_float (v : scalar) : spec_float :=
  match v with
  | SInt z => Float.of_Z z
  | SFloat x => x
  end.

(** [v * c] for a float literal [c] and an integer or float64 sample [v]
    (the scaled fields [lat], [lon] and [alt] are int32). *)
Definition mul_lit (v : scalar) (c : spec_float) : scalar :=
  SFloat (Float.mul (to_float v) c).

(** [v + n] for a sample [v] of a [timestamp] field and a Python integer
    [n]. The field is a uint64 array: [n] is converted to uint64, with
    [OverflowError] when it is negative or too large, and the sum wraps at
    [2^64]. A float64 sample is added to [float(n)] as a double. *)
Definition add_int (v : scalar) (n : Z) : result scalar :=
  match v with
  | SInt z =>
      if (0 <=? n) && (n <? 2 ^ 64) then Ok (SInt ((z + n) mod 2 ^ 64))
      else Raise OverflowError
  | SFloat x =>
      match Float.of_Z n with
      | S754_infinity _ => Raise OverflowError
      | y => Ok (SFloat (Float.add x y))
      end
  end.

(** [v > k] and [v < k] for an integer literal [k]; false on NaN. *)
Definition gt_int (v : scalar) (k : Z) : bool :=
  match v with
  | SInt z => k <? z
  | SFloat x => Float.ltb (Float.of_Z k) x
  end.

Definition lt_int (v : scalar) (k : Z) : bool :=
  match v with
  | SInt z => z <? k
  | SFloat x => Float.ltb x (Float.of_Z k)
  end.

(** [v == k] for an integer literal [k]. *)
Definition eq_int (v : scalar) (k : Z) : bool :=
  match v with
  | SInt z => z =? k
  | SFloat x => SFeqb x (Float.of_Z k)
  end.

(** [int(v)]: truncation towards zero. *)
Definition py_int (v : scalar) : result Z :=
  match v with
  | SInt z => Ok z
  | SFloat S754_nan => Raise ValueError
  | SFloat (S754_infinity _) => Raise OverflowError
  | SFloat (S754_zero _) => Ok 0
  | SFloat (S754_finite s m e) => Ok (fst (Time.modf s m e))
  end.

(** [range(v)]: only integers can be counted. *)
Definition py_range (v : scalar) : result (list nat) :=
  match v with
  | SInt z => Ok (range (Z.to_nat z))
  | SFloat _ => Raise TypeError
  end.

(** [a > k], element by element. *)
Definition greater (a : ndarray) (k : Z) : list bool :=
  match a with
  | IntArray l => map (fun z => gt_int (SInt z) k) l
  | FloatArray l => map (fun x => gt_int (SFloat x) k) l
  end.

(** [np.nonzero(bs)[0]]: the indices of the true entries, ascending. *)
Fixpoint nonzero_from (i : nat) (bs : list bool) : list nat :=
  match bs with
  | [] => []
  | b :: bs' => if b then i :: nonzero_from (S i) bs' else nonzero_from (S i) bs'
  end.

Definition nonzero (bs : list bool) : list nat := nonzero_from 0 bs.

(** [np.maximum] on doubles: a NaN on either side wins. *)
Definition fmax (a b : spec_float) : spec_float :=
  if Float.leb b a || Float.is_nan a then a else b.

(** [np.amax(a)]: [ValueError] on an empty array. *)
Definition amax (a : ndarray) : result scalar :=
  match a with
  | IntArray [] => Raise ValueError
  | IntArray (z :: l) => Ok (SInt (fold_left Z.max l z))
  | FloatArray [] => Raise ValueError
  | FloatArray (x :: l) => Ok (SFloat (fold_left fmax l x))
  end.

(** ['{:.pf}'.format(v)] *)
Definition format_scalar (p : nat) (v : scalar) : string :=
  format_f p (to_float v).

(** [datetime.datetime.utcfromtimestamp(t/1.e6).replace(tzinfo=utc)] *)
Definition utc_datetime (t : scalar) : result datetime :=
  Time.utcfromtimestamp (Float.div (to_float t) Float.lit_1e6).

(** ** The log *)

(** The [data] of a dataset: a dict from field name to array. *)
Abbreviation dataset := (gmap string ndarray).

(** [d[name]] *)
Definition field (d : dataset) (name : string) : result ndarray :=
  match d !! name with
  | Some a => Ok a
  | None => Raise KeyError
  end.

(** [d[name][i]] *)
Definition sample (d : dataset) (name : string) (i : nat) : result scalar :=
  let* a := field d name in
  getitem a i.

(** [bool(d)] for a dict. *)
Definition truthy (d : dataset) : bool := negb (Nat.eqb (size d) 0).

(** What the handler uses of a loaded ULog: [get_dataset(name).data],
    which raises when the topic cannot be produced, and the initial
    parameters. *)
Record ULog : Type := {
  get_dataset : string -> result dataset;
  initial_parameters : gmap string scalar
}.

(** The classes named by [except (KeyError, IndexError, ValueError)]. *)
Definition caught (e : exn) : bool :=
  match e with
  | KeyError | IndexError | ValueError => true
  | _ => false
  end.

(** ** Formatted series *)

(** One record of a numeric series: the ISO-8601 timestamp and the
    formatted numeric channels, in emission order. *)
Record record : Type := {
  stamp : string;
  channels : list string
}.

Definition join (parts : list string) : string :=
  fold_right String.append EmptyString parts.

(** ['["{:}", {:.pf}, ..., {:.pf}], '.format(stamp, *channels)] *)
Definition render_record (r : record) : string :=
  "[" +:+ quote +:+ stamp r +:+ quote +:+
  join (map (fun c => ", " +:+ c) (channels r)) +:+ "], ".

(** ['["{:}", "{:}"], '.format(stamp, mode_name)] *)
Definition render_mode (r : string * string) : string :=
  "[" +:+ quote +:+ fst r +:+ quote +:+ ", " +:+
  quote +:+ snd r +:+ quote +:+ "], ".

(** [s = '[ '], then [s += record] per sample, then [s += ' ]']. *)
Definition render_series {A : Type} (render : A -> string) (rs : list A)
  : string :=
  "[ " +:+ join (map render rs) +:+ " ]".

(** [range(len(d['timestamp']))] *)
Definition sample_indices (d : dataset) : result (list nat) :=
  let* timestamp := field d "timestamp" in
  Ok (range (array_len timestamp)).

(** [t = d['timestamp'][i] + utc_offset] and its UTC datetime. *)
Definition utc_stamp (d : dataset) (utc_offset : Z) (i : nat)
  : result datetime :=
  let* timestamp := sample d "timestamp" i in
  let* t := add_int timestamp utc_offset in
  utc_datetime t.

(** *** Takeoff and time base *)

Definition takeoff_index (gps_pos : dataset) : result nat :=
  let* fix_type := field gps_pos "fix_type" in
  let gps_indices := nonzero (greater fix_type 2) in
  Ok (match gps_indices with
      | i :: _ => i
      | [] => 0%nat
      end).

Definition takeoff_altitude (gps_pos : dataset) (takeoff_index : nat)
  : result string :=
  let* alt := sample gps_pos "alt" takeoff_index in
  Ok (format_scalar 3 (mul_lit alt Float.lit_1e_3)).

Definition takeoff_latitude (gps_pos : dataset) (takeoff_index : nat)
  : result string :=
  let* lat := sample gps_pos "lat" takeoff_index in
  Ok (format_scalar 10 (mul_lit lat Float.lit_1e_7)).

Definition takeoff_longitude (gps_pos : dataset) (takeoff_index : nat)
  : result string :=
  let* lon := sample gps_pos "lon" takeoff_index in
  Ok (format_scalar 10 (mul_lit lon Float.lit_1e_7)).

Definition utc_offset (gps_pos : dataset) (takeoff_index : nat) : result Z :=
  let* time_utc_usec := sample gps_pos "time_utc_usec" takeoff_index in
  let* utc := py_int time_utc_usec in
  let* timestamp := sample gps_pos "timestamp" takeoff_index in
  let* boot := py_int timestamp in
  Ok (utc - boot).

(** *** Manual control setpoints *)

Definition manual_control_setpoint_record (d : dataset) (utc_offset : Z)
  (i : nat) : result record :=
  let* manual_x := sample d "x" i in
  let* manual_y := sample d "y" i in
  let* manual_z := sample d "z" i in
  let* manual_r := sample d "r" i in
  let* utctimestamp := utc_stamp d utc_offset i in
  Ok {| stamp := Time.isoformat utctimestamp;
        channels := map (format_scalar 3)
                      [manual_x; manual_y; manual_z; manual_r] |}.

Definition manual_control_setpoint_records
  (manual_control_setpoint : option dataset)
  (utc_offset : Z) : result (list record) :=
  match manual_control_setpoint with
  | Some d =>
      if truthy d then
        let* idx := sample_indices d in
        for_each (manual_control_setpoint_record d utc_offset) idx
      else Ok []
  | None => Ok []
  end.

(** *** Position *)

Definition position_record (gps_pos : dataset) (utc_offset : Z) (i : nat)
  : result (datetime * record) :=
  let* lon := sample gps_pos "lon" i in
  let* lat := sample gps_pos "lat" i in
  let* alt := sample gps_pos "alt" i in
  let* utctimestamp := utc_stamp gps_pos utc_offset i in
  Ok (utctimestamp,
      {| stamp := Time.isoformat utctimestamp;
         channels := [format_scalar 10 (mul_lit lon Float.lit_1e_7);
                      format_scalar 10 (mul_lit lat Float.lit_1e_7);
                      format_scalar 3 (mul_lit alt Float.lit_1e_3)] |}).

Definition position (gps_pos : dataset) (utc_offset : Z)
  : result (list (datetime * record)) :=
  let* idx := sample_indices gps_pos in
  for_each (position_record gps_pos utc_offset) idx.

(** *** Attitude *)

Definition attitude_record (attitude : dataset) (utc_offset : Z) (i : nat)
  : result record :=
  let* att_qw := sample attitude "q[0]" i in
  let* att_qx := sample attitude "q[1]" i in
  let* att_qy := sample attitude "q[2]" i in
  let* att_qz := sample attitude "q[3]" i in
  let* rollSpeed := sample attitude "rollspeed" i in
  let* pitchSpeed := sample attitude "pitchspeed" i in
  let* yawSpeed := sample attitude "yawspeed" i in
  let* utctimestamp := utc_stamp attitude utc_offset i in
  Ok {| stamp := Time.isoformat utctimestamp;
        channels := map (format_scalar 6)
                      [att_qx; att_qy; att_qz; att_qw;
                       rollSpeed; pitchSpeed; yawSpeed] |}.

Definition attitude_records (attitude : dataset) (utc_offset : Z)
  : result (list record) :=
  let* idx := sample_indices attitude in
  for_each (attitude_record attitude utc_offset) idx.

(** *** Optional streams gated by [is not None] *)

(** [if stream is not None: for i in range(len(stream['timestamp'])): ...] *)
Definition if_not_none (stream : option dataset)
  (body : dataset -> nat -> result record) : result (list record) :=
  match stream with
  | Some d =>
      let* idx := sample_indices d in
      for_each (body d) idx
  | None => Ok []
  end.

Definition vehicle_rates_setpoint_record (utc_offset : Z) (d : dataset)
  (i : nat) : result record :=
  let* rollRateSP := sample d "roll" i in
  let* pitchRateSP := sample d "pitch" i in
  let* yawRateSp := sample d "yaw" i in
  let* utctimestamp := utc_stamp d utc_offset i in
  Ok {| stamp := Time.isoformat utctimestamp;
        channels := map (format_scalar 6)
                      [rollRateSP; pitchRateSP; yawRateSp] |}.

Definition sensor_combined_record (utc_offset : Z) (d : dataset) (i : nat)
  : result record :=
  let* rawRoll := sample d "gyro_rad[0]" i in
  let* rawPitch := sample d "gyro_rad[1]" i in
  let* rawYaw := sample d "gyro_rad[2]" i in
  let* rawXAcc := sample d "accelerometer_m_s2[0]" i in
  let* rawYAcc := sample d "accelerometer_m_s2[1]" i in
  let* rawZAcc := sample d "accelerometer_m_s2[2]" i in
  let* utctimestamp := utc_stamp d utc_offset i in
  Ok {| stamp := Time.isoformat utctimestamp;
        channels := map (format_scalar 6)
                      [rawRoll; rawPitch; rawYaw; rawXAcc; rawYAcc; rawZAcc] |}.

Definition vehicle_attitude_setpoint_record (utc_offset : Z) (d : dataset)
  (i : nat) : result record :=
  let* rollSP := sample d "roll_body" i in
  let* pitchSP := sample d "pitch_body" i in
  let* yawSP := sample d "yaw_body" i in
  let* utctimestamp := utc_stamp d utc_offset i in
  Ok {| stamp := Time.isoformat utctimestamp;
        channels := map (format_scalar 6) [rollSP; pitchSP; yawSP] |}.

(** Shared by [vehicle_local_position] and its setpoint, which read the
    same field names. *)
Definition vehicle_local_position_record (utc_offset : Z) (d : dataset)
  (i : nat) : result record :=
  let* xPos := sample d "x" i in
  let* yPos := sample d "y" i in
  let* zPos := sample d "z" i in
  let* xVel := sample d "vx" i in
  let* yVel := sample d "vy" i in
  let* zVel := sample d "vz" i in
  let* utctimestamp := utc_stamp d utc_offset i in
  Ok {| stamp := Time.isoformat utctimestamp;
        channels := map (format_scalar 6)
                      [xPos; yPos; zPos; xVel; yVel; zVel] |}.

Definition actuator_controls_0_record (utc_offset : Z) (d : dataset)
  (i : nat) : result record :=
  let* cont0 := sample d "control[0]" i in
  let* cont1 := sample d "control[1]" i in
  let* cont2 := sample d "control[2]" i in
  let* cont3 := sample d "control[3]" i in
  let* utctimestamp := utc_stamp d utc_offset i in
  Ok {| stamp := Time.isoformat utctimestamp;
        channels := map (format_scalar 6) [cont0; cont1; cont2; cont3] |}.

(** *** Actuator outputs *)

(** ['output['+str(x)+']'] *)
Definition output_field (x : nat) : string :=
  "output[" +:+ dec (Z.of_nat x) +:+ "]".

(** One iteration of the sample loop: the timestamp first, then one
    channel per [x in range(max_outputs)]. *)
Definition actuator_outputs_record (max_outputs : scalar) (utc_offset : Z)
  (d : dataset) (i : nat) : result record :=
  let* utctimestamp := utc_stamp d utc_offset i in
  let* xs := py_range max_outputs in
  let* actuatorList := for_each (fun x => sample d (output_field x) i) xs in
  Ok {| stamp := Time.isoformat utctimestamp;
        channels := map (format_scalar 6) actuatorList |}.

(** [num_actuator_outputs] after the two assignments that precede the
    loop. *)
Definition num_actuator_outputs (max_outputs : scalar) : scalar :=
  if lt_int max_outputs 8 then max_outputs else SInt 8.

Definition actuator_outputs_records (actuator_outputs : option dataset)
  (utc_offset : Z) : result (list record) :=
  match actuator_outputs with
  | Some d =>
      let* noutputs := field d "noutputs" in
      let* max_outputs := amax noutputs in
      let _num_actuator_outputs := num_actuator_outputs max_outputs in
      let* idx := sample_indices d in
      for_each (actuator_outputs_record max_outputs utc_offset d) idx
  | None => Ok []
  end.

(** *** Vehicle model *)

Definition Cesium_Air : string :=
  "plot_app/static/cesium/SampleData/models/CesiumAir/Cesium_Air.glb".
Definition iris : string := "plot_app/static/cesium/models/iris/iris.glb".

(** [mav_type == k], where [mav_type] may be [None]. *)
Definition mav_is (mav_type : option scalar) (k : Z) : bool :=
  match mav_type with
  | Some v => eq_int v k
  | None => false
  end.

(** The pair [(model_scale_factor, model_uri)]. *)
Definition vehicle_model (mav_type : option scalar) : scalar * string :=
  if mav_is mav_type 1 then (SFloat Float.lit_0_06, Cesium_Air)
  else if mav_is mav_type 2 then (SInt 1, iris)
  else if mav_is mav_type 22 then (SFloat Float.lit_0_06, Cesium_Air)
  else (SInt 1, iris).

(** ** The request *)

(** The keyword arguments handed to the template. *)
Record Page : Type := {
  flight_modes : string;
  manual_control_setpoints : string;
  takeoff_altitude_str : string;
  takeoff_longitude_str : string;
  takeoff_latitude_str : string;
  position_data : string;
  start_timestamp : string;
  boot_timestamp : string;
  end_timestamp : string;
  attitude_data : string;
  vehicle_attitude_setpoint_data : string;
  vehicle_local_position_data : string;
  vehicle_local_position_setpoint_data : string;
  actuator_outputs_data : string;
  vehicle_rates_setpoint_data : string;
  sensor_combined_data : string;
  actuator_controls_0_data : string;
  model_scale_factor : scalar;
  model_uri : string;
  log_id : string;
  bing_api_key : string;
  cesium_api_key : string
}.

Inductive response : Type :=
  | Rendered (page : Page)
  | HTTPError (status : Z) (message : string)
  | CustomHTTPError (status : Z) (message : string)
  | Uncaught (e : exn).

Definition missing_topics_message : string :=
  "The log does not contain all required topics<br />" +:+
  "(vehicle_gps_position, vehicle_global_position, " +:+
  "vehicle_attitude)".

(** The three lookups inside the first [try]. *)
Definition required_topics (ulog : ULog)
  : result (dataset * dataset * dataset) :=
  let* gps_pos := get_dataset ulog "vehicle_gps_position" in
  let* vehicle_global_position := get_dataset ulog "vehicle_global_position" in
  let* attitude := get_dataset ulog "vehicle_attitude" in
  Ok (gps_pos, vehicle_global_position, attitude).

(** [x = None], then [try: x = ulog.get_dataset(name).data] with the
    three classes swallowed (a message is printed) and any other
    exception propagated. *)
Definition optional_topic (ulog : ULog) (name : string)
  : result (option dataset) :=
  match get_dataset ulog name with
  | Ok d => Ok (Some d)
  | Raise e => if caught e then Ok None else Raise e
  end.

(** ['"{:}"'.format(s)] *)
Definition quoted (s : string) : string := quote +:+ s +:+ quote.

Section Handler.

(** Helpers and tables of [plot_app] that the handler imports. *)
Variable validate_log_id : string -> bool.
Variable get_log_filename : string -> string.
Variable load_ulog_file : string -> ULog + response.
Variable get_flight_mode_changes : ULog -> list (Z * Z).
Variable flight_modes_table : gmap Z (string * string).
Variable get_bing_maps_api_key : string.
Variable get_cesium_api_key : string.

(** The [(mode_name, color)] chosen for a mode code. *)
Definition mode_style (mode : Z) : string * string :=
  match flight_modes_table !! mode with
  | Some (mode_name, color) => (mode_name, color)
  | None => (EmptyString, "#ffffff"%string)
  end.

(** One iteration of the flight-mode loop: the emitted pair is the
    timestamp and the mode name. *)
Definition flight_mode_record (utc_offset : Z) (change : Z * Z)
  : result (string * string) :=
  let '(t, mode) := change in
  let t := t + utc_offset in
  let* utctimestamp := utc_datetime (SInt t) in
  let '(mode_name, color) := mode_style mode in
  Ok (Time.isoformat utctimestamp, mode_name).

Definition flight_mode_records (flight_mode_changes : list (Z * Z))
  (utc_offset : Z) : result (list (string * string)) :=
  for_each (flight_mode_record utc_offset) flight_mode_changes.

(** Everything after the required topics have been found. *)
Definition page (log : string) (ulog : ULog) (gps_pos attitude : dataset)
  : result Page :=
  let* manual_control_setpoint := optional_topic ulog "manual_control_setpoint" in
  let* vehicle_local_position := optional_topic ulog "vehicle_local_position" in
  let* vehicle_local_position_setpoint :=
    optional_topic ulog "vehicle_local_position_setpoint" in
  let* vehicle_attitude_setpoint := optional_topic ulog "vehicle_attitude_setpoint" in
  let* vehicle_rates_setpoint := optional_topic ulog "vehicle_rates_setpoint" in
  let* actuator_outputs := optional_topic ulog "actuator_outputs" in
  let* sensor_combined := optional_topic ulog "sensor_combined" in
  let* actuator_controls_0 := optional_topic ulog "actuator_controls_0" in
  let* takeoff_index := takeoff_index gps_pos in
  let* takeoff_altitude := takeoff_altitude gps_pos takeoff_index in
  let* takeoff_latitude := takeoff_latitude gps_pos takeoff_index in
  let* takeoff_longitude := takeoff_longitude gps_pos takeoff_index in
  let* utc_offset := utc_offset gps_pos takeoff_index in
  let* flight_modes := flight_mode_records (get_flight_mode_changes ulog) utc_offset in
  let* manual := manual_control_setpoint_records manual_control_setpoint utc_offset in
  let* positions := position gps_pos utc_offset in
  let* start :=
    match positions with
    | [] => Raise UnboundLocalError
    | (t, _) :: _ => Ok t
    end in
  let* boot := utc_datetime (SInt utc_offset) in
  let* att := attitude_records attitude utc_offset in
  let* rates_sp :=
    if_not_none vehicle_rates_setpoint (vehicle_rates_setpoint_record utc_offset) in
  let* sensor :=
    if_not_none sensor_combined (sensor_combined_record utc_offset) in
  let* att_sp :=
    if_not_none vehicle_attitude_setpoint
      (vehicle_attitude_setpoint_record utc_offset) in
  let* local_pos :=
    if_not_none vehicle_local_position (vehicle_local_position_record utc_offset) in
  let* local_pos_sp :=
    if_not_none vehicle_local_position_setpoint
      (vehicle_local_position_record utc_offset) in
  let* outputs := actuator_outputs_records actuator_outputs utc_offset in
  let* controls :=
    if_not_none actuator_controls_0 (actuator_controls_0_record utc_offset) in
  let mav_type := initial_parameters ulog !! "MAV_TYPE"%string in
  let '(scale, uri) := vehicle_model mav_type in
  Ok {| flight_modes := render_series render_mode flight_modes;
        manual_control_setpoints := render_series render_record manual;
        takeoff_altitude_str := takeoff_altitude;
        takeoff_longitude_str := takeoff_longitude;
        takeoff_latitude_str := takeoff_latitude;
        position_data := render_series render_record (map snd positions);
        start_timestamp := quoted (Time.isoformat start);
        boot_timestamp := quoted (Time.isoformat boot);
        end_timestamp := quoted (Time.isoformat (List.last (map fst positions) start));
        attitude_data := render_series render_record att;
        vehicle_attitude_setpoint_data := render_series render_record att_sp;
        vehicle_local_position_data := render_series render_record local_pos;
        vehicle_local_position_setpoint_data :=
          render_series render_record local_pos_sp;
        actuator_outputs_data := render_series render_record outputs;
        vehicle_rates_setpoint_data := render_series render_record rates_sp;
        sensor_combined_data := render_series render_record sensor;
        actuator_controls_0_data := render_series render_record controls;
        model_scale_factor := scale;
        model_uri := uri;
        log_id := log;
        bing_api_key := get_bing_maps_api_key;
        cesium_api_key := get_cesium_api_key |}.

(** The handler on a loaded log. *)
Definition serve (log : string) (ulog : ULog) : response :=
  match required_topics ulog with
  | Raise e =>
      if caught e then CustomHTTPError 400 missing_topics_message
      else Uncaught e
  | Ok (gps_pos, vehicle_global_position, attitude) =>
      match page log ulog gps_pos attitude with
      | Ok p => Rendered p
      | Raise e => Uncaught e
      end
  end.

(** [ThreeDHandler.get] *)
Definition get (log : string) : response :=
  if negb (validate_log_id log) then HTTPError 400 "Invalid Parameter"
  else
    match load_ulog_file (get_log_filename log) with
    | inl ulog => serve log ulog
    | inr failure => failure
    end.

End Handler.

(** ** Vocabulary of the statements *)

(** [needle in hay] for strings. *)
Definition occurs (needle hay : string) : bool :=
  match String.index 0 needle hay with
  | Some _ => true
  | None => false
  end.

(** The number of characters after the first decimal point, if any. *)
Fixpoint decimal_places (s : string) : option nat :=
  match s with
  | EmptyString => None
  | String c s' =>
      if Ascii.eqb c "."%char then Some (String.length s') else decimal_places s'
  end.

(** The record [r] stands for sample [i] of dataset [d]: its timestamp is
    the device timestamp of that sample plus [utc_offset], as [add_int]
    adds them. *)
Definition stamped_at (utc_offset : Z) (d : dataset) (i : nat) (r : record)
  : Prop :=
  exists t t' dt,
    sample d "timestamp" i = Ok t /\
    add_int t utc_offset = Ok t' /\
    utc_datetime t' = Ok dt /\
    stamp r = Time.isoformat dt.

(** [text] is the serialisation of records that all stand for samples of
    [stream], moved by [utc_offset]. *)
Definition series_from (utc_offset : Z) (stream : option dataset)
  (text : string) : Prop :=
  exists rs,
    text = render_series render_record rs /\
    forall r, r ∈ rs ->
      exists d i, stream = Some d /\ stamped_at utc_offset d i r.

(** The numeric series of the page, with the function that builds one
    record of each. *)
Inductive series : Type :=
  | Manual_control
  | Position
  | Attitude
  | Rates_setpoint
  | Sensor_combined
  | Attitude_setpoint
  | Local_position
  | Local_position_setpoint
  | Actuator_outputs (max_outputs : scalar)
  | Actuator_controls.

Definition series_record (s : series) (utc_offset : Z) (d : dataset) (i : nat)
  : result record :=
  match s with
  | Manual_control => manual_control_setpoint_record d utc_offset i
  | Position =>
      let* r := position_record d utc_offset i in
      Ok (snd r)
  | Attitude => attitude_record d utc_offset i
  | Rates_setpoint => vehicle_rates_setpoint_record utc_offset d i
  | Sensor_combined => sensor_combined_record utc_offset d i
  | Attitude_setpoint => vehicle_attitude_setpoint_record utc_offset d i
  | Local_position => vehicle_local_position_record utc_offset d i
  | Local_position_setpoint => vehicle_local_position_record utc_offset d i
  | Actuator_outputs max_outputs =>
      actuator_outputs_record max_outputs utc_offset d i
  | Actuator_controls => actuator_controls_0_record utc_offset d i
  end.

(** The optional topics, in lookup order. *)
Definition optional_topics : list string :=
  ["manual_control_setpoint"; "vehicle_local_position";
   "vehicle_local_position_setpoint"; "vehicle_attitude_setpoint";
   "vehicle_rates_setpoint"; "actuator_outputs"; "sensor_combined";
   "actuator_controls_0"]%string.

(** [text] is the serialisation of one record per mode change, each with
    the timestamp of the change moved by [utc_offset]. *)
Definition modes_from (utc_offset : Z) (flight_mode_changes : list (Z * Z))
  (text : string) : Prop :=
  exists rs,
    text = render_series render_mode rs /\
    Forall2 (fun change r =>
               exists dt,
                 utc_datetime (SInt (fst change + utc_offset)) = Ok dt /\
                 fst r = Time.isoformat dt)
      flight_mode_changes rs.

(** Every series of the page [p] is moved by the same [utc_offset]. *)
Definition page_moved_by (utc_offset : Z) (flight_mode_changes : list (Z * Z))
  (ulog : ULog) (gps_pos attitude : dataset) (p : Page) : Prop :=
  modes_from utc_offset flight_mode_changes (flight_modes p) /\
  series_from utc_offset (Some gps_pos) (position_data p) /\
  series_from utc_offset (Some attitude) (attitude_data p) /\
  (exists m, optional_topic ulog "manual_control_setpoint" = Ok m /\
             series_from utc_offset m (manual_control_setpoints p)) /\
  (exists m, optional_topic ulog "vehicle_local_position" = Ok m /\
             series_from utc_offset m (vehicle_local_position_data p)) /\
  (exists m, optional_topic ulog "vehicle_local_position_setpoint" = Ok m /\
             series_from utc_offset m (vehicle_local_position_setpoint_data p)) /\
  (exists m, optional_topic ulog "vehicle_attitude_setpoint" = Ok m /\
             series_from utc_offset m (vehicle_attitude_setpoint_data p)) /\
  (exists m, optional_topic ulog "vehicle_rates_setpoint" = Ok m /\
             series_from utc_offset m (vehicle_rates_setpoint_data p)) /\
  (exists m, optional_topic ulog "actuator_outputs" = Ok m /\
             series_from utc_offset m (actuator_outputs_data p)) /\
  (exists m, optional_topic ulog "sensor_combined" = Ok m /\
             series_from utc_offset m (sensor_combined_data p)) /\
  (exists m, optional_topic ulog "actuator_controls_0" = Ok m /\
             series_from utc_offset m (actuator_controls_0_data p)).

(** What is left of a value that belongs to topic [name] once the failing
    topics are gone. *)
Definition masked {A : Type} (fail : string -> option exn) (name : string)
  (gone kept : A) : A :=
  match fail name with
  | Some _ => gone
  | None => kept
  end.

(** The log [ulog] in which the lookup of every topic [name] with
    [fail name = Some e] raises [e]. *)
Definition without (fail : string -> option exn) (ulog : ULog) : ULog :=
  {| get_dataset := fun name =>
       match fail name with
       | Some e => Raise e
       | None => get_dataset ulog name
       end;
     initial_parameters := initial_parameters ulog |}.

Definition empty_series : string := render_series render_record [].

(** The page [p] with the series of the failing topics emptied. *)
Definition blank (fail : string -> option exn) (p : Page) : Page :=
  let keep (name : string) (text : string) : string :=
    masked fail name empty_series text in
  {| flight_modes := flight_modes p;
     manual_control_setpoints :=
       keep "manual_control_setpoint" (manual_control_setpoints p);
     takeoff_altitude_str := takeoff_altitude_str p;
     takeoff_longitude_str := takeoff_longitude_str p;
     takeoff_latitude_str := takeoff_latitude_str p;
     position_data := position_data p;
     start_timestamp := start_timestamp p;
     boot_timestamp := boot_timestamp p;
     end_timestamp := end_timestamp p;
     attitude_data := attitude_data p;
     vehicle_attitude_setpoint_data :=
       keep "vehicle_attitude_setpoint" (vehicle_attitude_setpoint_data p);
     vehicle_local_position_data :=
       keep "vehicle_local_position" (vehicle_local_position_data p);
     vehicle_local_position_setpoint_data :=
       keep "vehicle_local_position_setpoint"
         (vehicle_local_position_setpoint_data p);
     actuator_outputs_data := keep "actuator_outputs" (actuator_outputs_data p);
     vehicle_rates_setpoint_data :=
       keep "vehicle_rates_setpoint" (vehicle_rates_setpoint_data p);
     sensor_combined_data := keep "sensor_combined" (sensor_combined_data p);
     actuator_controls_0_data :=
       keep "actuator_controls_0" (actuator_controls_0_data p);
     model_scale_factor := model_scale_factor p;
     model_uri := model_uri p;
     log_id := log_id p;
     bing_api_key := bing_api_key p;
     cesium_api_key := cesium_api_key p |}.

(** The required topics, in lookup order. *)
Definition required_names : list string :=
  ["vehicle_gps_position"; "vehicle_global_position";
   "vehicle_attitude"]%string.

(** The topic is located. *)
Definition found (ulog : ULog) (name : string) : Prop :=
  exists d, get_dataset ulog name = Ok d.

(** The topic cannot be located or is malformed: its lookup raises a
    missing key, index or value error. *)
Definition missing (ulog : ULog) (name : string) : Prop :=
  exists e, get_dataset ulog name = Raise e /\ caught e = true.

(** The log [ulog] in which topic [name] loads as [d]. *)
Definition with_topic (name : string) (d : dataset) (ulog : ULog) : ULog :=
  {| get_dataset := fun n =>
       if String.eqb n name then Ok d else get_dataset ulog n;
     initial_parameters := initial_parameters ulog |}.

(** The required lookups run in order and stop at the first that raises:
    [e] is the exception of that lookup. *)
Definition first_required_failure (ulog : ULog) (e : exn) : Prop :=
  get_dataset ulog "vehicle_gps_position" = Raise e \/
  (found ulog "vehicle_gps_position" /\
   get_dataset ulog "vehicle_global_position" = Raise e) \/
  (found ulog "vehicle_gps_position" /\
   found ulog "vehicle_global_position" /\
   get_dataset ulog "vehicle_attitude" = Raise e).

(** ** A small log *)

Module Sample.

Definition epoch : Z := 1573862400000000.

Definition gps_pos : dataset :=
  list_to_map
    [("timestamp"%string, IntArray [1000000; 2000000; 3000000; 4000000]);
     ("time_utc_usec"%string,
      IntArray [0; 0; epoch + 3000000; epoch + 4000000]);
     ("fix_type"%string, IntArray [1; 2; 3; 4]);
     ("lat"%string, IntArray [85455940; 85455940; 85455940; 85455941]);
     ("lon"%string, IntArray [473977420; 473977420; 473977420; 473977421]);
     ("alt"%string, IntArray [1500; 1500; 1500; 2500])].

Definition attitude : dataset :=
  list_to_map
    [("timestamp"%string, IntArray [1000000]);
     ("q[0]"%string, FloatArray [Float.single 7 10]);
     ("q[1]"%string, FloatArray [Float.single 1 10]);
     ("q[2]"%string, FloatArray [Float.single 2 10]);
     ("q[3]"%string, FloatArray [Float.single 68 100]);
     ("rollspeed"%string, FloatArray [Float.single 0 1]);
     ("pitchspeed"%string, FloatArray [Float.single (-1) 3]);
     ("yawspeed"%string, FloatArray [Float.single 5 4])].

(** An [actuator_outputs] topic as PX4 logs it: sixteen output fields,
    of which [noutputs] are in use. *)
Definition actuator_outputs (noutputs : Z) : dataset :=
  list_to_map
    (("timestamp"%string, IntArray [1000000; 2000000]) ::
     ("noutputs"%string, IntArray [noutputs; noutputs]) ::
     map (fun x => (output_field x,
                    FloatArray [Float.single 1500 1; Float.single 1000 1]))
         (range 16)).

Definition vehicle_rates_setpoint : dataset :=
  list_to_map
    [("timestamp"%string, IntArray [1000000]);
     ("roll"%string, FloatArray [Float.single 1 4]);
     ("pitch"%string, FloatArray [Float.single 1 2]);
     ("yaw"%string, FloatArray [Float.single 3 4])].

Definition ulog (noutputs : Z) : ULog :=
  {| get_dataset := fun name =>
       if String.eqb name "vehicle_gps_position" then Ok gps_pos
       else if String.eqb name "vehicle_global_position" then Ok ∅
       else if String.eqb name "vehicle_attitude" then Ok attitude
       else if String.eqb name "actuator_outputs"
            then Ok (actuator_outputs noutputs)
       else if String.eqb name "vehicle_rates_setpoint"
            then Ok vehicle_rates_setpoint
       else Raise IndexError;
     initial_parameters := {[ "MAV_TYPE"%string := SInt 2 ]} |}.

Definition flight_mode_changes : list (Z * Z) :=
  [(1000000, 0); (3000000, 7)].

Definition flight_modes_table : gmap Z (string * string) :=
  {[ 0 := ("Manual"%string, "#cc0000"%string) ]}.

Definition serve (u : ULog) : response :=
  serve (fun _ => flight_mode_changes) flight_modes_table
    "bing" "cesium" "sample" u.

End Sample.

(** ** Vocabulary of the series *)

(** The fields a series reads for one sample, in emission order, each with
    the text emitted for the sample read. *)
Definition series_fields (s : series) : list (string * (scalar -> string)) :=
  match s with
  | Manual_control =>
      map (fun f => (f, format_scalar 3)) ["x"; "y"; "z"; "r"]%string
  | Position =>
      [("lon"%string, fun v => format_scalar 10 (mul_lit v Float.lit_1e_7));
       ("lat"%string, fun v => format_scalar 10 (mul_lit v Float.lit_1e_7));
       ("alt"%string, fun v => format_scalar 3 (mul_lit v Float.lit_1e_3))]
  | Attitude =>
      map (fun f => (f, format_scalar 6))
        ["q[1]"; "q[2]"; "q[3]"; "q[0]";
         "rollspeed"; "pitchspeed"; "yawspeed"]%string
  | Rates_setpoint =>
      map (fun f => (f, format_scalar 6)) ["roll"; "pitch"; "yaw"]%string
  | Sensor_combined =>
      map (fun f => (f, format_scalar 6))
        ["gyro_rad[0]"; "gyro_rad[1]"; "gyro_rad[2]";
         "accelerometer_m_s2[0]"; "accelerometer_m_s2[1]";
         "accelerometer_m_s2[2]"]%string
  | Attitude_setpoint =>
      map (fun f => (f, format_scalar 6))
        ["roll_body"; "pitch_body"; "yaw_body"]%string
  | Local_position | Local_position_setpoint =>
      map (fun f => (f, format_scalar 6))
        ["x"; "y"; "z"; "vx"; "vy"; "vz"]%string
  | Actuator_outputs (SInt max_outputs) =>
      map (fun x => (output_field x, format_scalar 6))
        (range (Z.to_nat max_outputs))
  | Actuator_outputs (SFloat _) => []
  | Actuator_controls =>
      map (fun f => (f, format_scalar 6))
        ["control[0]"; "control[1]"; "control[2]"; "control[3]"]%string
  end.

(** The number of decimals of the channels of a series that prints its
    samples unscaled. *)
Definition series_precision (s : series) : nat :=
  match s with
  | Manual_control => 3
  | _ => 6
  end.

(** [rs] holds one record per sample of [d], in sample order. *)
Definition in_sample_order (s : series) (utc_offset : Z) (d : dataset)
  (timestamp : ndarray) (rs : list record) : Prop :=
  length rs = array_len timestamp /\
  forall i, (i < array_len timestamp)%nat ->
    exists r, rs !! i = Some r /\ series_record s utc_offset d i = Ok r.

Example format_f_1500mm :
  format_f 3 (Float.mul (Float.of_Z 1500) Float.lit_1e_3) = "1.500"%string.
Proof. vm_compute. reflexivity. Qed.

(** ** The error monad and loops *)

Lemma bind_ok {A B : Type} (r : result A) (k : A -> result B) (b : B) :
  bind r k = Ok b -> exists a, r = Ok a /\ k a = Ok b.
Proof. destruct r as [a|e]; simpl; [eauto | discriminate]. Qed.

(** Invert a chain of binds that is known to succeed. *)
Ltac invert_ok H :=
  repeat
    (let a := fresh "v" in
     let E := fresh "E" in
     apply bind_ok in H as (a & E & H));
  try (injection H as H).

Lemma for_each_ok {A B : Type} (body : A -> result B) (xs : list A)
  (bs : list B) :
  for_each body xs = Ok bs -> Forall2 (fun x b => body x = Ok b) xs bs.
Proof.
  revert bs. induction xs as [|x xs IH]; intros bs H; simpl in H.
  - injection H as <-. constructor.
  - apply bind_ok in H as (b & Hb & H).
    apply bind_ok in H as (bs' & Hbs & H).
    injection H as <-. constructor; auto.
Qed.

Lemma for_each_length {A B : Type} (body : A -> result B) (xs : list A)
  (bs : list B) :
  for_each body xs = Ok bs -> length bs = length xs.
Proof. intros H. symmetry. eapply Forall2_length, for_each_ok, H. Qed.

Lemma for_each_elem {A B : Type} (body : A -> result B) (xs : list A)
  (bs : list B) (b : B) :
  for_each body xs = Ok bs -> b ∈ bs -> exists x, x ∈ xs /\ body x = Ok b.
Proof.
  intros H Hb. apply for_each_ok in H.
  induction H as [|x b' xs bs Hx _ IH].
  - inversion Hb.
  - apply elem_of_cons in Hb as [->|Hb].
    + exists x. split; [left | exact Hx].
    + destruct (IH Hb) as (x' & Hin & Hx'). exists x'. split; [by right | done].
Qed.

(** ** Takeoff index *)

Lemma nonzero_from_first (i : nat) (bs : list bool) :
  match nonzero_from i bs with
  | [] => forall j, bs !! j <> Some true
  | k :: _ =>
      (i <= k)%nat /\ bs !! (k - i)%nat = Some true /\
      forall j, (j < k - i)%nat -> bs !! j = Some false
  end.
Proof.
  revert i. induction bs as [|b bs IH]; intros i; simpl.
  - intros j. by rewrite lookup_nil.
  - destruct b.
    + replace (i - i)%nat with 0%nat by lia. repeat split; [lia | lia].
    + specialize (IH (S i)). destruct (nonzero_from (S i) bs) as [|k ks].
      * intros [|j]; simpl; [discriminate | apply IH].
      * destruct IH as (Hle & Hk & Hlt).
        replace (k - i)%nat with (S (k - S i)) by lia.
        repeat split; [lia | exact Hk |].
        intros [|j] Hj; simpl; [done | apply Hlt; lia].
Qed.

Lemma greater_int_lookup (l : list Z) (k : Z) (j : nat) (b : bool) :
  greater (IntArray l) k !! j = Some b <->
  exists v, l !! j = Some v /\ b = (k <? v).
Proof.
  simpl. rewrite list_lookup_fmap. destruct (l !! j) as [v|]; simpl.
  - split; [intros [= <-]; eauto | intros (v' & [= <-] & ->); done].
  - split; [discriminate | intros (v' & [=] & _)].
Qed.

(** C4. The takeoff index is the index of the first GPS sample whose
    [fix_type] is strictly greater than 2, and 0 when no sample exceeds
    the threshold; for the fix types [1,2,3,4] it is 2, and for an array
    whose values are all at most 2 it is 0. *)
Theorem takeoff_index_first_fix :
  (forall (gps_pos : dataset) (fix_type : list Z),
     gps_pos !! "fix_type"%string = Some (IntArray fix_type) ->
     exists k : nat,
       takeoff_index gps_pos = Ok k /\
       ((exists v, fix_type !! k = Some v /\ 2 < v /\
                   forall j w, (j < k)%nat -> fix_type !! j = Some w -> w <= 2)
        \/ (k = 0%nat /\ forall j w, fix_type !! j = Some w -> w <= 2))) /\
  takeoff_index {[ "fix_type"%string := IntArray [1; 2; 3; 4] ]} = Ok 2%nat /\
  (forall fix_type : list Z,
     Forall (fun v => v <= 2) fix_type ->
     takeoff_index {[ "fix_type"%string := IntArray fix_type ]} = Ok 0%nat).
Proof.
  assert (General : forall (gps_pos : dataset) (fix_type : list Z),
     gps_pos !! "fix_type"%string = Some (IntArray fix_type) ->
     exists k : nat,
       takeoff_index gps_pos = Ok k /\
       ((exists v, fix_type !! k = Some v /\ 2 < v /\
                   forall j w, (j < k)%nat -> fix_type !! j = Some w -> w <= 2)
        \/ (k = 0%nat /\ forall j w, fix_type !! j = Some w -> w <= 2))).
  { intros gps_pos fix_type Hfix.
    unfold takeoff_index, field. rewrite Hfix. cbn [bind].
    unfold nonzero.
    pose proof (nonzero_from_first 0 (greater (IntArray fix_type) 2)) as Hnz.
    destruct (nonzero_from 0 (greater (IntArray fix_type) 2)) as [|k ks].
    - exists 0%nat. split; [done |]. right. split; [done |].
      intros j w Hw. destruct (Z.leb_spec w 2) as [|Hgt]; [done |].
      exfalso. apply (Hnz j). apply greater_int_lookup.
      exists w. split; [done |]. symmetry. by apply Z.ltb_lt.
    - destruct Hnz as (_ & Hk & Hlt). rewrite Nat.sub_0_r in Hk, Hlt.
      exists k. split; [done |]. left.
      apply greater_int_lookup in Hk as (v & Hv & Hb).
      exists v. split; [done |]. split; [by apply Z.ltb_lt |].
      intros j w Hj Hw. specialize (Hlt j Hj).
      apply greater_int_lookup in Hlt as (w' & Hw' & Hb').
      rewrite Hw in Hw'. injection Hw' as <-.
      symmetry in Hb'. apply Z.ltb_ge in Hb'. exact Hb'. }
  split; [exact General |]. split; [reflexivity |].
  intros fix_type Hall.
  destruct (General {[ "fix_type"%string := IntArray fix_type ]} fix_type)
    as (k & Hk & [(v & Hv & Hgt & _) | (-> & _)]).
  - apply lookup_singleton_eq.
  - exfalso. rewrite Forall_lookup in Hall. specialize (Hall k v Hv). simpl in Hall. lia.
  - exact Hk.
Qed.

Lemma takeoff_index_first_fix_witness :
  Sample.gps_pos !! "fix_type"%string = Some (IntArray [1; 2; 3; 4]) /\
  exists k : nat,
    takeoff_index Sample.gps_pos = Ok k /\
    ((exists v, [1; 2; 3; 4] !! k = Some v /\ 2 < v /\
                forall j w, (j < k)%nat -> [1; 2; 3; 4] !! j = Some w -> w <= 2)
     \/ (k = 0%nat /\ forall j w, [1; 2; 3; 4] !! j = Some w -> w <= 2)).
Proof.
  split; [reflexivity |].
  apply (proj1 takeoff_index_first_fix Sample.gps_pos [1; 2; 3; 4]).
  reflexivity.
Defined.

(** ** Vehicle model *)

Lemma page_vehicle_model (get_flight_mode_changes : ULog -> list (Z * Z))
  (flight_modes_table : gmap Z (string * string)) (bing cesium log : string)
  (ulog : ULog) (gps_pos attitude : dataset) (p : Page) :
  page get_flight_mode_changes flight_modes_table bing cesium log ulog
    gps_pos attitude = Ok p ->
  (model_scale_factor p, model_uri p)
  = vehicle_model (initial_parameters ulog !! "MAV_TYPE"%string).
Proof.
  unfold page. intros H. invert_ok H.
  destruct (vehicle_model (initial_parameters ulog !! "MAV_TYPE"%string))
    as [scale uri].
  injection H as <-. reflexivity.
Qed.

(** C7. The model selector is total: code 1 gives the fixed-wing asset at
    scale 0.06, code 2 the multirotor asset at scale 1, code 22 the
    fixed-wing asset at scale 0.06, and every other value, absent
    metadata included, the multirotor asset at scale 1; the page takes its
    model from the selector applied to the [MAV_TYPE] parameter. *)
Theorem vehicle_model_total :
  vehicle_model (Some (SInt 1)) = (SFloat Float.lit_0_06, Cesium_Air) /\
  vehicle_model (Some (SInt 2)) = (SInt 1, iris) /\
  vehicle_model (Some (SInt 22)) = (SFloat Float.lit_0_06, Cesium_Air) /\
  vehicle_model None = (SInt 1, iris) /\
  (forall z : Z, z <> 1 -> z <> 2 -> z <> 22 ->
     vehicle_model (Some (SInt z)) = (SInt 1, iris)) /\
  (forall v : option scalar,
     mav_is v 1 = false -> mav_is v 2 = false -> mav_is v 22 = false ->
     vehicle_model v = (SInt 1, iris)) /\
  (forall v : option scalar,
     vehicle_model v = (SFloat Float.lit_0_06, Cesium_Air) \/
     vehicle_model v = (SInt 1, iris)) /\
  format_f 2 Float.lit_0_06 = "0.06"%string /\
  Float.lit_0_06 = S754_finite false 8646911284551352 (-57) /\
  (forall (get_flight_mode_changes : ULog -> list (Z * Z))
          (flight_modes_table : gmap Z (string * string))
          (bing cesium log : string) (ulog : ULog)
          (gps_pos attitude : dataset) (p : Page),
     page get_flight_mode_changes flight_modes_table bing cesium log ulog
       gps_pos attitude = Ok p ->
     (model_scale_factor p, model_uri p)
     = vehicle_model (initial_parameters ulog !! "MAV_TYPE"%string)).
Proof.
  assert (Other : forall v : option scalar,
     mav_is v 1 = false -> mav_is v 2 = false -> mav_is v 22 = false ->
     vehicle_model v = (SInt 1, iris)).
  { intros v H1 H2 H22. unfold vehicle_model. by rewrite H1, H2, H22. }
  repeat split; try reflexivity; try exact Other;
    try exact page_vehicle_model.
  - intros z H1 H2 H22. apply Other; simpl; by apply Z.eqb_neq.
  - intros v. unfold vehicle_model.
    destruct (mav_is v 1); [by left |].
    destruct (mav_is v 2); [by right |].
    destruct (mav_is v 22); [by left | by right].
Qed.

Lemma vehicle_model_total_witness :
  (3 <> 1 /\ 3 <> 2 /\ 3 <> 22) /\
  vehicle_model (Some (SInt 3)) = (SInt 1, iris).
Proof.
  split; [lia |].
  apply (proj1 (proj2 (proj2 (proj2 (proj2 vehicle_model_total)))) 3); lia.
Defined.

(** ** Actuator outputs *)

Lemma actuator_outputs_record_channels (max_outputs : Z) (utc_offset : Z)
  (d : dataset) (i : nat) (r : record) :
  actuator_outputs_record (SInt max_outputs) utc_offset d i = Ok r ->
  length (channels r) = Z.to_nat max_outputs.
Proof.
  unfold actuator_outputs_record. intros H.
  apply bind_ok in H as (dt & _ & H). simpl in H.
  apply bind_ok in H as (vs & Hvs & H). injection H as <-. simpl.
  rewrite length_map. apply for_each_length in Hvs.
  rewrite Hvs. unfold range. apply length_seq.
Qed.

(** Every record carries one channel per [x in range(max_outputs)]: the
    loop is driven by the observed maximum itself. *)
Lemma actuator_outputs_channels (d : dataset) (utc_offset : Z) (z : Z)
  (l : list Z) (rs : list record) :
  d !! "noutputs"%string = Some (IntArray (z :: l)) ->
  actuator_outputs_records (Some d) utc_offset = Ok rs ->
  Forall (fun r => length (channels r) = Z.to_nat (fold_left Z.max l z)) rs.
Proof.
  intros Hn H. unfold actuator_outputs_records, field in H.
  rewrite Hn in H. cbn [bind amax] in H.
  apply bind_ok in H as (idx & _ & H).
  apply Forall_forall. intros r Hr.
  destruct (for_each_elem _ _ _ _ H Hr) as (i & _ & Hi).
  eapply actuator_outputs_record_channels, Hi.
Qed.

(** Up to eight outputs, that number is [min(8, max noutputs)]. *)
Lemma actuator_outputs_channels_le_8 (d : dataset) (utc_offset : Z) (z : Z)
  (l : list Z) (rs : list record) :
  d !! "noutputs"%string = Some (IntArray (z :: l)) ->
  fold_left Z.max l z <= 8 ->
  actuator_outputs_records (Some d) utc_offset = Ok rs ->
  Forall (fun r => length (channels r)
                   = Z.to_nat (Z.min 8 (fold_left Z.max l z))) rs.
Proof.
  intros Hn Hle H. rewrite Z.min_r by lia.
  eapply actuator_outputs_channels; eauto.
Qed.

(** C1. Evaluation on a log whose [noutputs] is 16 throughout: the cap of
    eight is computed into [num_actuator_outputs], but each record is
    emitted with sixteen channels. *)
Theorem actuator_outputs_sixteen_channels :
  amax (IntArray [16; 16]) = Ok (SInt 16) /\
  num_actuator_outputs (SInt 16) = SInt 8 /\
  exists r1 r2,
    actuator_outputs_records (Some (Sample.actuator_outputs 16)) Sample.epoch
    = Ok [r1; r2] /\
    length (channels r1) = 16%nat /\ length (channels r2) = 16%nat.
Proof.
  split; [reflexivity |]. split; [reflexivity |].
  destruct (actuator_outputs_records (Some (Sample.actuator_outputs 16))
              Sample.epoch) as [rs|e] eqn:E; vm_compute in E.
  - injection E as <-. do 2 eexists. split; [reflexivity |]. split; reflexivity.
  - discriminate E.
Qed.

(** With four outputs in use the records have four channels. *)
Example actuator_outputs_four_channels :
  exists r1 r2,
    actuator_outputs_records (Some (Sample.actuator_outputs 4)) Sample.epoch
    = Ok [r1; r2] /\
    channels r1 = ["1500.000000"; "1500.000000"; "1500.000000"; "1500.000000"]%string /\
    channels r2 = ["1000.000000"; "1000.000000"; "1000.000000"; "1000.000000"]%string.
Proof.
  destruct (actuator_outputs_records (Some (Sample.actuator_outputs 4))
              Sample.epoch) as [rs|e] eqn:E; vm_compute in E.
  - injection E as <-. do 2 eexists. split; [reflexivity |]. split; reflexivity.
  - discriminate E.
Qed.

(** ** Gating of the optional series *)

Lemma truthy_empty : truthy ∅ = false.
Proof. reflexivity. Qed.

Lemma truthy_false_empty (d : dataset) : truthy d = false -> d = ∅.
Proof.
  unfold truthy. intros H. apply negb_false_iff, Nat.eqb_eq in H.
  by apply map_size_empty_iff.
Qed.

(** C10. The manual control series is gated by the truth value of the
    loaded data: a dataset that loads but is falsy, such as the empty
    mapping, gives the empty series. Every other optional series is gated
    by [is not None] and is serialised whenever loading succeeds, so the
    empty mapping reaches the field lookups there. *)
Theorem manual_control_gated_by_truth :
  (forall (d : dataset) (utc_offset : Z),
     truthy d = false ->
     manual_control_setpoint_records (Some d) utc_offset = Ok []) /\
  truthy ∅ = false /\
  (forall (d : dataset) (utc_offset : Z),
     truthy d = true ->
     manual_control_setpoint_records (Some d) utc_offset
     = (let* idx := sample_indices d in
        for_each (manual_control_setpoint_record d utc_offset) idx)) /\
  (forall (d : dataset) (body : dataset -> nat -> result record),
     if_not_none (Some d) body
     = (let* idx := sample_indices d in for_each (body d) idx)) /\
  (forall body : dataset -> nat -> result record,
     if_not_none (Some ∅) body = Raise KeyError) /\
  (forall utc_offset : Z,
     actuator_outputs_records (Some ∅) utc_offset = Raise KeyError) /\
  (exists p,
     Sample.serve (with_topic "manual_control_setpoint" ∅ (Sample.ulog 4))
     = Rendered p /\
     manual_control_setpoints p = empty_series) /\
  Forall (fun name =>
            Sample.serve (with_topic name ∅ (Sample.ulog 4)) = Uncaught KeyError)
    ["vehicle_local_position"; "vehicle_local_position_setpoint";
     "vehicle_attitude_setpoint"; "vehicle_rates_setpoint";
     "actuator_outputs"; "sensor_combined"; "actuator_controls_0"]%string.
Proof.
  split; [| split; [| split; [| split; [| split; [| split; [| split]]]]]].
  - intros d utc_offset H. simpl. by rewrite H.
  - exact truthy_empty.
  - intros d utc_offset H. simpl. by rewrite H.
  - reflexivity.
  - reflexivity.
  - reflexivity.
  - destruct (Sample.serve (with_topic "manual_control_setpoint" ∅ (Sample.ulog 4)))
      as [p| | |] eqn:E; vm_compute in E; try discriminate E.
    exists p. split; [reflexivity |]. injection E as <-. reflexivity.
  - repeat constructor; vm_compute; reflexivity.
Qed.

Lemma manual_control_gated_by_truth_witness :
  truthy (∅ : dataset) = false /\
  manual_control_setpoint_records (Some ∅) Sample.epoch = Ok [].
Proof.
  split; [reflexivity |].
  apply (proj1 manual_control_gated_by_truth ∅ Sample.epoch). reflexivity.
Defined.

(** ** Decimal places *)

Lemma decimal_places_app (a b : string) :
  decimal_places a = None ->
  decimal_places (a +:+ String "."%char b) = Some (String.length b).
Proof.
  induction a as [|c a IH]; simpl; intros H.
  - reflexivity.
  - destruct (Ascii.eqb c "."%char); [discriminate | auto].
Qed.

Lemma decimal_places_uint (u : Decimal.uint) :
  decimal_places (NilEmpty.string_of_uint u) = None.
Proof. induction u; simpl; auto. Qed.

Lemma decimal_places_dec (n : Z) : decimal_places (dec n) = None.
Proof.
  unfold dec, NilZero.string_of_uint.
  destruct (N.to_uint (Z.to_N n)); try reflexivity;
    apply (decimal_places_uint (_ _)).
Qed.

Lemma length_app_string (a b : string) :
  String.length (a +:+ b) = (String.length a + String.length b)%nat.
Proof. induction a as [|c a IH]; simpl; [done | by rewrite IH]. Qed.

Lemma dec_pad_length (w : nat) (n : Z) : String.length (dec_pad w n) = w.
Proof.
  revert n. induction w as [|w IH]; intros n; simpl; [done |].
  rewrite length_app_string, IH. simpl. lia.
Qed.

Lemma decimal_places_fixed (p : nat) (n : Z) (s : bool) :
  (0 < p)%nat -> decimal_places (sign_str s +:+ fixed p n) = Some p.
Proof.
  intros Hp. destruct p as [|p]; [lia |]. unfold fixed.
  assert (H : decimal_places
                (dec (n / 10 ^ Z.of_nat (S p)) +:+
                 String "."%char (dec_pad (S p) (n mod 10 ^ Z.of_nat (S p))))
              = Some (S p)).
  { rewrite decimal_places_app by apply decimal_places_dec.
    by rewrite dec_pad_length. }
  destruct s; simpl sign_str; [| exact H].
  change ("-" +:+ ?x)%string with (String "-"%char x). simpl.
  exact H.
Qed.

(** A finite number printed by ['{:.pf}'] has exactly [p] decimals. *)
Lemma format_f_decimal_places (p : nat) (x : spec_float) :
  (0 < p)%nat -> Float.is_finite x = true ->
  decimal_places (format_f p x) = Some p.
Proof.
  intros Hp Hx. destruct x; simpl in Hx; try discriminate; simpl format_f;
    by apply decimal_places_fixed.
Qed.

(** ** Attitude *)

(** C6. Every attitude record emits the quaternion as x, y, z, w, that is
    [q[1]], [q[2]], [q[3]], [q[0]] of the stored sample, followed by
    rollspeed, pitchspeed and yawspeed, each printed with six decimals; the
    stored quaternion (0.7, 0.1, 0.2, 0.68) is emitted as
    (0.1, 0.2, 0.68, 0.7). *)
Theorem attitude_record_order :
  (forall (attitude : dataset) (utc_offset : Z) (i : nat) (r : record),
     attitude_record attitude utc_offset i = Ok r ->
     exists qw qx qy qz rollspeed pitchspeed yawspeed,
       sample attitude "q[0]" i = Ok qw /\
       sample attitude "q[1]" i = Ok qx /\
       sample attitude "q[2]" i = Ok qy /\
       sample attitude "q[3]" i = Ok qz /\
       sample attitude "rollspeed" i = Ok rollspeed /\
       sample attitude "pitchspeed" i = Ok pitchspeed /\
       sample attitude "yawspeed" i = Ok yawspeed /\
       channels r = [format_f 6 (to_float qx); format_f 6 (to_float qy);
                     format_f 6 (to_float qz); format_f 6 (to_float qw);
                     format_f 6 (to_float rollspeed);
                     format_f 6 (to_float pitchspeed);
                     format_f 6 (to_float yawspeed)]) /\
  (forall x : spec_float,
     Float.is_finite x = true -> decimal_places (format_f 6 x) = Some 6%nat) /\
  (exists r,
     attitude_record Sample.attitude Sample.epoch 0 = Ok r /\
     channels r = ["0.100000"; "0.200000"; "0.680000"; "0.700000";
                   "0.000000"; "-0.333333"; "1.250000"]%string).
Proof.
  split; [| split].
  - intros attitude utc_offset i r H. unfold attitude_record in H.
    invert_ok H. subst r. cbn [channels map].
    exists v, v0, v1, v2, v3, v4, v5. by repeat (split; [assumption |]).
  - intros x Hx. apply format_f_decimal_places; [lia | exact Hx].
  - destruct (attitude_record Sample.attitude Sample.epoch 0) as [r|e] eqn:E;
      vm_compute in E; [| discriminate E].
    exists r. split; [reflexivity |]. injection E as <-. reflexivity.
Qed.

Lemma attitude_record_order_witness :
  exists r,
    attitude_record Sample.attitude Sample.epoch 0 = Ok r /\
    exists qw qx qy qz rollspeed pitchspeed yawspeed,
      sample Sample.attitude "q[0]" 0 = Ok qw /\
      sample Sample.attitude "q[1]" 0 = Ok qx /\
      sample Sample.attitude "q[2]" 0 = Ok qy /\
      sample Sample.attitude "q[3]" 0 = Ok qz /\
      sample Sample.attitude "rollspeed" 0 = Ok rollspeed /\
      sample Sample.attitude "pitchspeed" 0 = Ok pitchspeed /\
      sample Sample.attitude "yawspeed" 0 = Ok yawspeed /\
      channels r = [format_f 6 (to_float qx); format_f 6 (to_float qy);
                    format_f 6 (to_float qz); format_f 6 (to_float qw);
                    format_f 6 (to_float rollspeed);
                    format_f 6 (to_float pitchspeed);
                    format_f 6 (to_float yawspeed)].
Proof.
  destruct (attitude_record Sample.attitude Sample.epoch 0) as [r|e] eqn:E.
  - exists r. split; [reflexivity |].
    exact (proj1 attitude_record_order Sample.attitude Sample.epoch 0%nat r E).
  - vm_compute in E. discriminate E.
Defined.

(** ** Position and takeoff *)

(** C9. Longitude and latitude are the stored integers multiplied by
    [1.e-7] and printed with ten decimals, altitude is the stored integer
    multiplied by [1.e-3] and printed with three, in the position records
    and in the takeoff values alike; a stored longitude of 473977420 gives
    47.3977420000, a stored latitude of 85455940 gives 8.5455940000 and a
    stored altitude of 1500 gives 1.500. *)
Theorem position_scaling :
  (forall (gps_pos : dataset) (utc_offset : Z) (i : nat) (dt : datetime)
          (r : record),
     position_record gps_pos utc_offset i = Ok (dt, r) ->
     exists lon lat alt,
       sample gps_pos "lon" i = Ok lon /\
       sample gps_pos "lat" i = Ok lat /\
       sample gps_pos "alt" i = Ok alt /\
       channels r = [format_f 10 (Float.mul (to_float lon) Float.lit_1e_7);
                     format_f 10 (Float.mul (to_float lat) Float.lit_1e_7);
                     format_f 3 (Float.mul (to_float alt) Float.lit_1e_3)]) /\
  (forall (gps_pos : dataset) (k : nat) (text : string),
     takeoff_longitude gps_pos k = Ok text ->
     exists lon, sample gps_pos "lon" k = Ok lon /\
       text = format_f 10 (Float.mul (to_float lon) Float.lit_1e_7)) /\
  (forall (gps_pos : dataset) (k : nat) (text : string),
     takeoff_latitude gps_pos k = Ok text ->
     exists lat, sample gps_pos "lat" k = Ok lat /\
       text = format_f 10 (Float.mul (to_float lat) Float.lit_1e_7)) /\
  (forall (gps_pos : dataset) (k : nat) (text : string),
     takeoff_altitude gps_pos k = Ok text ->
     exists alt, sample gps_pos "alt" k = Ok alt /\
       text = format_f 3 (Float.mul (to_float alt) Float.lit_1e_3)) /\
  (forall (p : nat) (x : spec_float),
     (0 < p)%nat -> Float.is_finite x = true ->
     decimal_places (format_f p x) = Some p) /\
  Float.lit_1e_7 = S754_finite false 7555786372591432 (-76) /\
  Float.lit_1e_3 = S754_finite false 4611686018427388 (-62) /\
  format_f 10 (Float.mul (to_float (SInt 473977420)) Float.lit_1e_7)
  = "47.3977420000"%string /\
  format_f 10 (Float.mul (to_float (SInt 85455940)) Float.lit_1e_7)
  = "8.5455940000"%string /\
  format_f 3 (Float.mul (to_float (SInt 1500)) Float.lit_1e_3)
  = "1.500"%string.
Proof.
  split; [| split; [| split; [| split; [| split]]]].
  - intros gps_pos utc_offset i dt r H. unfold position_record in H.
    invert_ok H. subst r. cbn [channels].
    exists v, v0, v1. by repeat (split; [assumption |]).
  - intros gps_pos k text H. unfold takeoff_longitude in H.
    invert_ok H. subst text. exists v. by split.
  - intros gps_pos k text H. unfold takeoff_latitude in H.
    invert_ok H. subst text. exists v. by split.
  - intros gps_pos k text H. unfold takeoff_altitude in H.
    invert_ok H. subst text. exists v. by split.
  - intros p x. apply format_f_decimal_places.
  - repeat split; vm_compute; reflexivity.
Qed.

Lemma position_scaling_witness :
  exists dt r,
    position_record Sample.gps_pos Sample.epoch 0 = Ok (dt, r) /\
    exists lon lat alt,
      sample Sample.gps_pos "lon" 0 = Ok lon /\
      sample Sample.gps_pos "lat" 0 = Ok lat /\
      sample Sample.gps_pos "alt" 0 = Ok alt /\
      channels r = [format_f 10 (Float.mul (to_float lon) Float.lit_1e_7);
                    format_f 10 (Float.mul (to_float lat) Float.lit_1e_7);
                    format_f 3 (Float.mul (to_float alt) Float.lit_1e_3)].
Proof.
  destruct (position_record Sample.gps_pos Sample.epoch 0) as [[dt r]|e] eqn:E.
  - exists dt, r. split; [reflexivity |].
    exact (proj1 position_scaling Sample.gps_pos Sample.epoch 0%nat dt r E).
  - vm_compute in E. discriminate E.
Defined.

(** ** Flight modes *)

Lemma flight_mode_record_label (table : gmap Z (string * string))
  (utc_offset t mode : Z) :
  flight_mode_record table utc_offset (t, mode)
  = (let* utctimestamp := utc_datetime (SInt (t + utc_offset)) in
     Ok (Time.isoformat utctimestamp, fst (mode_style table mode))).
Proof.
  unfold flight_mode_record.
  destruct (utc_datetime (SInt (t + utc_offset))) as [dt|e]; cbn [bind]; [| done].
  by destruct (mode_style table mode).
Qed.

(** C8 as stated fails: the emitted record of a mode that is not in the
    table holds the timestamp and the empty label, and no color. *)
Lemma flight_mode_color_not_emitted :
  ~ (forall (table : gmap Z (string * string)) (utc_offset t mode : Z)
            (r : string * string),
       table !! mode = None ->
       flight_mode_record table utc_offset (t, mode) = Ok r ->
       snd r = EmptyString /\ occurs "#ffffff" (render_mode r) = true).
Proof.
  intros H.
  destruct (flight_mode_record Sample.flight_modes_table Sample.epoch (3000000, 7))
    as [r|e] eqn:E.
  - destruct (H Sample.flight_modes_table Sample.epoch 3000000 7 r eq_refl E)
      as [_ Hocc].
    vm_compute in E. injection E as <-. vm_compute in Hocc. discriminate Hocc.
  - vm_compute in E. discriminate E.
Qed.

(** C8, amended. For a mode code that is not in the table the lookup
    raises nothing, the label is the empty string and the color chosen is
    "#ffffff"; a recognised code takes the label of the table. The emitted
    record holds the timestamp and the label only: the series does not
    depend on the colors. *)
Theorem flight_mode_unknown_label :
  (forall (table : gmap Z (string * string)) (utc_offset t mode : Z),
     table !! mode = None ->
     mode_style table mode = (EmptyString, "#ffffff"%string) /\
     flight_mode_record table utc_offset (t, mode)
     = (let* utctimestamp := utc_datetime (SInt (t + utc_offset)) in
        Ok (Time.isoformat utctimestamp, EmptyString))) /\
  (forall (table : gmap Z (string * string)) (utc_offset t mode : Z)
          (mode_name color : string),
     table !! mode = Some (mode_name, color) ->
     flight_mode_record table utc_offset (t, mode)
     = (let* utctimestamp := utc_datetime (SInt (t + utc_offset)) in
        Ok (Time.isoformat utctimestamp, mode_name))) /\
  (forall (table table' : gmap Z (string * string))
          (flight_mode_changes : list (Z * Z)) (utc_offset : Z),
     (forall mode, fst (mode_style table mode) = fst (mode_style table' mode)) ->
     flight_mode_records table flight_mode_changes utc_offset
     = flight_mode_records table' flight_mode_changes utc_offset).
Proof.
  split; [| split].
  - intros table utc_offset t mode Hm.
    assert (Hs : mode_style table mode = (EmptyString, "#ffffff"%string)).
    { unfold mode_style. by rewrite Hm. }
    split; [exact Hs |]. rewrite flight_mode_record_label. by rewrite Hs.
  - intros table utc_offset t mode mode_name color Hm.
    rewrite flight_mode_record_label. unfold mode_style. by rewrite Hm.
  - intros table table' changes utc_offset Hlab. unfold flight_mode_records.
    induction changes as [|[t mode] changes IH]; [done |].
    cbn [for_each]. rewrite IH, !flight_mode_record_label. by rewrite Hlab.
Qed.

Lemma flight_mode_unknown_label_witness :
  Sample.flight_modes_table !! 7 = None /\
  mode_style Sample.flight_modes_table 7 = (EmptyString, "#ffffff"%string) /\
  flight_mode_record Sample.flight_modes_table Sample.epoch (3000000, 7)
  = (let* utctimestamp := utc_datetime (SInt (3000000 + Sample.epoch)) in
     Ok (Time.isoformat utctimestamp, EmptyString)).
Proof.
  split; [reflexivity |].
  apply (proj1 flight_mode_unknown_label Sample.flight_modes_table
           Sample.epoch 3000000 7).
  reflexivity.
Defined.

(** ** Required topics *)

Lemma required_topics_found (ulog : ULog) :
  (forall name, name ∈ required_names -> found ulog name) ->
  exists topics, required_topics ulog = Ok topics.
Proof.
  intros H. unfold required_topics.
  destruct (H "vehicle_gps_position"%string) as [d1 ->];
    [unfold required_names; repeat constructor |].
  destruct (H "vehicle_global_position"%string) as [d2 ->];
    [unfold required_names; repeat constructor |].
  destruct (H "vehicle_attitude"%string) as [d3 ->];
    [unfold required_names; repeat constructor |].
  by eexists.
Qed.

Lemma required_topics_missing (ulog : ULog) :
  (forall name, name ∈ required_names -> found ulog name \/ missing ulog name) ->
  (exists name, name ∈ required_names /\ missing ulog name) ->
  exists e, required_topics ulog = Raise e /\ caught e = true.
Proof.
  intros Hall (name & Hin & e & He & Hc). unfold required_topics.
  assert (H1 : "vehicle_gps_position"%string ∈ required_names)
    by (unfold required_names; repeat constructor).
  assert (H2 : "vehicle_global_position"%string ∈ required_names)
    by (unfold required_names; repeat constructor).
  assert (H3 : "vehicle_attitude"%string ∈ required_names)
    by (unfold required_names; repeat constructor).
  destruct (Hall _ H1) as [[d1 E1] | (e1 & E1 & C1)]; rewrite E1; cbn [bind];
    [| by exists e1].
  destruct (Hall _ H2) as [[d2 E2] | (e2 & E2 & C2)]; rewrite E2; cbn [bind];
    [| by exists e2].
  destruct (Hall _ H3) as [[d3 E3] | (e3 & E3 & C3)]; rewrite E3; cbn [bind];
    [| by exists e3].
  exfalso. unfold required_names in Hin.
  repeat (apply elem_of_cons in Hin as [-> | Hin]); [| | | by inversion Hin];
    congruence.
Qed.

(** C2. A log that holds the three required topics never fails with the
    missing-topic error. A log in which one of them cannot be located or
    is malformed (its lookup raises a missing key, index or value error)
    fails with status 400 and a message that names all three topics. *)
Theorem required_topics_error :
  (forall (get_flight_mode_changes : ULog -> list (Z * Z))
          (flight_modes_table : gmap Z (string * string))
          (bing cesium log : string) (ulog : ULog),
     (forall name, name ∈ required_names -> found ulog name) ->
     forall status message,
       serve get_flight_mode_changes flight_modes_table bing cesium log ulog
       <> CustomHTTPError status message) /\
  (forall (get_flight_mode_changes : ULog -> list (Z * Z))
          (flight_modes_table : gmap Z (string * string))
          (bing cesium log : string) (ulog : ULog),
     (forall name, name ∈ required_names ->
                   found ulog name \/ missing ulog name) ->
     (exists name, name ∈ required_names /\ missing ulog name) ->
     serve get_flight_mode_changes flight_modes_table bing cesium log ulog
     = CustomHTTPError 400 missing_topics_message) /\
  Forall (fun name => occurs name missing_topics_message = true) required_names.
Proof.
  split; [| split].
  - intros changes table bing cesium log ulog Hall status message.
    destruct (required_topics_found ulog Hall) as [[[gps glob] att] E].
    unfold serve. rewrite E.
    by destruct (page changes table bing cesium log ulog gps att).
  - intros changes table bing cesium log ulog Hall Hone.
    destruct (required_topics_missing ulog Hall Hone) as (e & E & Hc).
    unfold serve. by rewrite E, Hc.
  - repeat constructor.
Qed.

(** A topic that is located but lacks the fields read later is not
    covered by the [try]: the [KeyError] of the field lookup propagates. *)
Example located_without_fields :
  Sample.serve (with_topic "vehicle_gps_position" ∅ (Sample.ulog 4))
  = Uncaught KeyError.
Proof. vm_compute. reflexivity. Qed.

Lemma required_topics_error_witness :
  (forall name, name ∈ required_names -> found (Sample.ulog 4) name) /\
  (forall status message,
     Sample.serve (Sample.ulog 4) <> CustomHTTPError status message) /\
  let broken := without (fun name =>
                  if String.eqb name "vehicle_attitude" then Some IndexError
                  else None) (Sample.ulog 4) in
  (forall name, name ∈ required_names -> found broken name \/ missing broken name) /\
  (exists name, name ∈ required_names /\ missing broken name) /\
  Sample.serve broken = CustomHTTPError 400 missing_topics_message.
Proof.
  assert (F : forall name, name ∈ required_names -> found (Sample.ulog 4) name).
  { intros name Hin. unfold required_names in Hin.
    repeat (apply elem_of_cons in Hin as [-> | Hin]); [| | | by inversion Hin];
      eexists; reflexivity. }
  split; [exact F |]. split.
  - exact (proj1 required_topics_error _ _ _ _ _ _ F).
  - intros broken.
    assert (A : forall name, name ∈ required_names ->
                             found broken name \/ missing broken name).
    { intros name Hin. unfold required_names in Hin.
      repeat (apply elem_of_cons in Hin as [-> | Hin]); [| | | by inversion Hin].
      - left. eexists. reflexivity.
      - left. eexists. reflexivity.
      - right. exists IndexError. split; reflexivity. }
    assert (B : exists name, name ∈ required_names /\ missing broken name).
    { exists "vehicle_attitude"%string. split.
      - unfold required_names. repeat constructor.
      - exists IndexError. split; reflexivity. }
    split; [exact A |]. split; [exact B |].
    exact (proj1 (proj2 required_topics_error) _ _ _ _ _ _ A B).
Defined.

(** ** Time base *)

Lemma utc_stamp_ok (d : dataset) (utc_offset : Z) (i : nat) (dt : datetime) :
  utc_stamp d utc_offset i = Ok dt ->
  exists t t', sample d "timestamp" i = Ok t /\
               add_int t utc_offset = Ok t' /\
               utc_datetime t' = Ok dt.
Proof.
  unfold utc_stamp. intros H.
  apply bind_ok in H as (t & Ht & H). apply bind_ok in H as (t' & Ht' & H).
  by exists t, t'.
Qed.

(** Close [stamped_at] from the inverted binds of a record builder. *)
Ltac stamped H :=
  invert_ok H; subst;
  match goal with
  | E : utc_stamp _ _ _ = Ok ?dt |- _ =>
      apply utc_stamp_ok in E as (?t & ?t' & ?Ht & ?Hsum & ?Hdt);
      eexists _, _, dt; split; [eassumption |]; split; [eassumption |];
      split; [eassumption | reflexivity]
  end.

Lemma series_record_stamped (s : series) (utc_offset : Z) (d : dataset)
  (i : nat) (r : record) :
  series_record s utc_offset d i = Ok r -> stamped_at utc_offset d i r.
Proof.
  destruct s; cbn [series_record]; intros H.
  - unfold manual_control_setpoint_record in H. stamped H.
  - apply bind_ok in H as ([dt r'] & H & Hr). injection Hr as <-.
    unfold position_record in H. stamped H.
  - unfold attitude_record in H. stamped H.
  - unfold vehicle_rates_setpoint_record in H. stamped H.
  - unfold sensor_combined_record in H. stamped H.
  - unfold vehicle_attitude_setpoint_record in H. stamped H.
  - unfold vehicle_local_position_record in H. stamped H.
  - unfold vehicle_local_position_record in H. stamped H.
  - unfold actuator_outputs_record in H. stamped H.
  - unfold actuator_controls_0_record in H. stamped H.
Qed.

Lemma for_each_series_from (s : series) (utc_offset : Z) (d : dataset)
  (idx : list nat) (rs : list record) :
  for_each (series_record s utc_offset d) idx = Ok rs ->
  series_from utc_offset (Some d) (render_series render_record rs).
Proof.
  intros H. exists rs. split; [done |]. intros r Hr.
  destruct (for_each_elem _ _ _ _ H Hr) as (i & _ & Hi).
  exists d, i. split; [done |]. eapply series_record_stamped, Hi.
Qed.

Lemma series_from_empty (utc_offset : Z) (stream : option dataset) :
  series_from utc_offset stream (render_series render_record []).
Proof. exists []. split; [done |]. intros r Hr. inversion Hr. Qed.

Lemma if_not_none_series_from (s : series) (utc_offset : Z)
  (stream : option dataset) (rs : list record) :
  if_not_none stream (series_record s utc_offset) = Ok rs ->
  series_from utc_offset stream (render_series render_record rs).
Proof.
  destruct stream as [d|]; simpl; intros H.
  - apply bind_ok in H as (idx & _ & H). eapply for_each_series_from, H.
  - injection H as <-. apply series_from_empty.
Qed.

Lemma manual_series_from (utc_offset : Z) (stream : option dataset)
  (rs : list record) :
  manual_control_setpoint_records stream utc_offset = Ok rs ->
  series_from utc_offset stream (render_series render_record rs).
Proof.
  destruct stream as [d|]; simpl; intros H.
  - destruct (truthy d).
    + apply bind_ok in H as (idx & _ & H).
      apply (for_each_series_from Manual_control _ _ _ _ H).
    + injection H as <-. apply series_from_empty.
  - injection H as <-. apply series_from_empty.
Qed.

Lemma actuator_outputs_series_from (utc_offset : Z) (stream : option dataset)
  (rs : list record) :
  actuator_outputs_records stream utc_offset = Ok rs ->
  series_from utc_offset stream (render_series render_record rs).
Proof.
  destruct stream as [d|]; simpl; intros H.
  - apply bind_ok in H as (noutputs & _ & H).
    apply bind_ok in H as (max_outputs & _ & H).
    apply bind_ok in H as (idx & _ & H).
    apply (for_each_series_from (Actuator_outputs max_outputs) _ _ _ _ H).
  - injection H as <-. apply series_from_empty.
Qed.

Lemma position_series_from (utc_offset : Z) (gps_pos : dataset)
  (positions : list (datetime * record)) :
  position gps_pos utc_offset = Ok positions ->
  series_from utc_offset (Some gps_pos)
    (render_series render_record (map snd positions)).
Proof.
  unfold position. intros H. apply bind_ok in H as (idx & _ & H).
  exists (map snd positions). split; [done |]. intros r Hr.
  apply list_elem_of_fmap in Hr as ([dt r'] & -> & Hr).
  destruct (for_each_elem _ _ _ _ H Hr) as (i & _ & Hi).
  exists gps_pos, i. split; [done |].
  apply (series_record_stamped Position). cbn [series_record].
  by rewrite Hi.
Qed.

Lemma attitude_series_from (utc_offset : Z) (attitude : dataset)
  (rs : list record) :
  attitude_records attitude utc_offset = Ok rs ->
  series_from utc_offset (Some attitude) (render_series render_record rs).
Proof.
  unfold attitude_records. intros H. apply bind_ok in H as (idx & _ & H).
  apply (for_each_series_from Attitude _ _ _ _ H).
Qed.

Lemma flight_modes_from (table : gmap Z (string * string))
  (changes : list (Z * Z)) (utc_offset : Z) (rs : list (string * string)) :
  flight_mode_records table changes utc_offset = Ok rs ->
  modes_from utc_offset changes (render_series render_mode rs).
Proof.
  intros H. exists rs. split; [done |].
  apply for_each_ok in H.
  eapply Forall2_impl; [exact H |].
  intros [t mode] r Hr. rewrite flight_mode_record_label in Hr.
  apply bind_ok in Hr as (dt & Hdt & Hr). injection Hr as <-.
  exists dt. by split.
Qed.

Lemma utc_offset_difference (gps_pos : dataset) (k : nat) (offset : Z) :
  utc_offset gps_pos k = Ok offset ->
  exists time_utc_usec timestamp utc boot,
    sample gps_pos "time_utc_usec" k = Ok time_utc_usec /\
    py_int time_utc_usec = Ok utc /\
    sample gps_pos "timestamp" k = Ok timestamp /\
    py_int timestamp = Ok boot /\
    offset = utc - boot.
Proof.
  unfold utc_offset. intros H. invert_ok H.
  exists v, v1, v0, v2. by repeat (split; [assumption |]).
Qed.

(** One offset, taken at the takeoff index, moves every series of a
    rendered page. *)
Lemma page_one_offset (get_flight_mode_changes : ULog -> list (Z * Z))
  (flight_modes_table : gmap Z (string * string)) (bing cesium log : string)
  (ulog : ULog) (gps_pos attitude : dataset) (p : Page) :
  page get_flight_mode_changes flight_modes_table bing cesium log ulog
    gps_pos attitude = Ok p ->
  exists (k : nat) (offset : Z),
    takeoff_index gps_pos = Ok k /\
    utc_offset gps_pos k = Ok offset /\
    page_moved_by offset (get_flight_mode_changes ulog) ulog gps_pos attitude p.
Proof.
  unfold page. intros H. invert_ok H.
  destruct (vehicle_model (initial_parameters ulog !! "MAV_TYPE"%string))
    as [scale uri].
  injection H as <-. unfold page_moved_by. cbn.
  exists v7, v11.
  split; [assumption |]. split; [assumption |].
  split; [eapply flight_modes_from; eassumption |].
  split; [by apply position_series_from |].
  split; [by apply attitude_series_from |].
  split; [exists v; split; [assumption | by apply manual_series_from] |].
  split; [exists v0; split;
          [assumption | by apply (if_not_none_series_from Local_position)] |].
  split; [exists v1; split;
          [assumption
          | by apply (if_not_none_series_from Local_position_setpoint)] |].
  split; [exists v2; split;
          [assumption | by apply (if_not_none_series_from Attitude_setpoint)] |].
  split; [exists v3; split;
          [assumption | by apply (if_not_none_series_from Rates_setpoint)] |].
  split; [exists v4; split;
          [assumption | by apply actuator_outputs_series_from] |].
  split; [exists v5; split;
          [assumption | by apply (if_not_none_series_from Sensor_combined)] |].
  exists v6; split;
    [assumption | by apply (if_not_none_series_from Actuator_controls)].
Qed.

Lemma add_int_uint64 (z n : Z) (t : scalar) :
  add_int (SInt z) n = Ok t <->
  0 <= n < 2 ^ 64 /\ t = SInt ((z + n) mod 2 ^ 64).
Proof.
  cbn [add_int].
  destruct (Z.leb_spec 0 n) as [H0|H0], (Z.ltb_spec n (2 ^ 64)) as [H1|H1];
    cbn [andb]; split;
    try (intros [= <-]; split; [lia | reflexivity]);
    try discriminate;
    try (intros [? _]; lia).
  by intros [_ ->].
Qed.

Lemma add_int_exact (z n : Z) :
  0 <= z -> 0 <= n -> z + n < 2 ^ 64 ->
  add_int (SInt z) n = Ok (SInt (z + n)).
Proof.
  intros Hz Hn Hsum. apply add_int_uint64. split; [lia |].
  by rewrite Z.mod_small by lia.
Qed.

(** C3. The UTC offset is the UTC time minus the device time of the GPS
    sample at the takeoff index; a rendered page adds that one offset to
    every device timestamp of every series, as a uint64 sample and a Python
    integer are added (the offset must fit uint64, the sum wraps at [2^64]
    and is exact below); hence two records of any two series whose device
    timestamps are equal carry the same ISO-8601 string, and so does a
    flight-mode record for the same instant as long as the sum does not
    wrap. *)
Theorem utc_offset_uniform :
  (forall (gps_pos : dataset) (k : nat) (offset : Z),
     utc_offset gps_pos k = Ok offset ->
     exists time_utc_usec timestamp utc boot,
       sample gps_pos "time_utc_usec" k = Ok time_utc_usec /\
       py_int time_utc_usec = Ok utc /\
       sample gps_pos "timestamp" k = Ok timestamp /\
       py_int timestamp = Ok boot /\
       offset = utc - boot) /\
  (forall (get_flight_mode_changes : ULog -> list (Z * Z))
          (flight_modes_table : gmap Z (string * string))
          (bing cesium log : string) (ulog : ULog)
          (gps_pos attitude : dataset) (p : Page),
     page get_flight_mode_changes flight_modes_table bing cesium log ulog
       gps_pos attitude = Ok p ->
     exists (k : nat) (offset : Z),
       takeoff_index gps_pos = Ok k /\
       utc_offset gps_pos k = Ok offset /\
       page_moved_by offset (get_flight_mode_changes ulog) ulog
         gps_pos attitude p) /\
  (forall (s : series) (offset : Z) (d : dataset) (i : nat) (r : record),
     series_record s offset d i = Ok r -> stamped_at offset d i r) /\
  (forall (z n : Z) (t : scalar),
     add_int (SInt z) n = Ok t <->
     0 <= n < 2 ^ 64 /\ t = SInt ((z + n) mod 2 ^ 64)) /\
  (forall z n : Z,
     0 <= z -> 0 <= n -> z + n < 2 ^ 64 ->
     add_int (SInt z) n = Ok (SInt (z + n))) /\
  (forall (s1 s2 : series) (offset : Z) (d1 d2 : dataset) (i j : nat)
          (r1 r2 : record) (t1 t2 : scalar),
     series_record s1 offset d1 i = Ok r1 ->
     series_record s2 offset d2 j = Ok r2 ->
     sample d1 "timestamp" i = Ok t1 ->
     sample d2 "timestamp" j = Ok t2 ->
     add_int t1 offset = add_int t2 offset ->
     stamp r1 = stamp r2) /\
  (forall (flight_modes_table : gmap Z (string * string)) (s : series)
          (offset : Z) (d : dataset) (i : nat) (r : record) (t mode : Z)
          (m : string * string),
     series_record s offset d i = Ok r ->
     sample d "timestamp" i = Ok (SInt t) ->
     0 <= t -> t + offset < 2 ^ 64 ->
     flight_mode_record flight_modes_table offset (t, mode) = Ok m ->
     fst m = stamp r).
Proof.
  split; [exact utc_offset_difference |].
  split; [exact page_one_offset |].
  split; [exact series_record_stamped |].
  split; [exact add_int_uint64 |].
  split; [exact add_int_exact |].
  split.
  - intros s1 s2 offset d1 d2 i j r1 r2 t1 t2 H1 H2 Ht1 Ht2 Hsum.
    apply series_record_stamped in H1
      as (t1' & u1 & dt1 & Ht1' & Hu1 & Hdt1 & ->).
    apply series_record_stamped in H2
      as (t2' & u2 & dt2 & Ht2' & Hu2 & Hdt2 & ->).
    assert (t1' = t1) as -> by congruence.
    assert (t2' = t2) as -> by congruence.
    assert (u1 = u2) as -> by congruence.
    congruence.
  - intros table s offset d i r t mode m Hr Ht Hpos Hsum Hm.
    apply series_record_stamped in Hr as (t' & u & dt & Ht' & Hu & Hdt & ->).
    assert (t' = SInt t) as -> by congruence.
    apply add_int_uint64 in Hu as [Hoff ->].
    rewrite Z.mod_small in Hdt by lia.
    rewrite flight_mode_record_label in Hm.
    apply bind_ok in Hm as (dt' & Hdt' & Hm). injection Hm as <-.
    cbn [fst]. congruence.
Qed.

Lemma utc_offset_uniform_witness :
  exists p,
    page (fun _ => Sample.flight_mode_changes) Sample.flight_modes_table
      "bing" "cesium" "sample" (Sample.ulog 4) Sample.gps_pos Sample.attitude
    = Ok p /\
    exists (k : nat) (offset : Z),
      takeoff_index Sample.gps_pos = Ok k /\
      utc_offset Sample.gps_pos k = Ok offset /\
      page_moved_by offset Sample.flight_mode_changes (Sample.ulog 4)
        Sample.gps_pos Sample.attitude p.
Proof.
  destruct (page (fun _ => Sample.flight_mode_changes) Sample.flight_modes_table
              "bing" "cesium" "sample" (Sample.ulog 4) Sample.gps_pos
              Sample.attitude) as [p|e] eqn:E.
  - exists p. split; [reflexivity |].
    exact (proj1 (proj2 utc_offset_uniform) _ _ _ _ _ _ _ _ p E).
  - vm_compute in E. discriminate E.
Defined.

(** A log without GPS time: the UTC time is 0 and no sample has a fix, so
    the offset is minus the first device timestamp; it does not fit uint64
    and the first addition to a device timestamp raises. *)
Example no_fix_log_overflows :
  let gps_pos : dataset :=
    <["time_utc_usec"%string := IntArray [0; 0; 0; 0]]>
      (<["fix_type"%string := IntArray [0; 0; 0; 0]]> Sample.gps_pos) in
  utc_offset gps_pos 0 = Ok (-1000000) /\
  Sample.serve (with_topic "vehicle_gps_position" gps_pos (Sample.ulog 4))
  = Uncaught OverflowError.
Proof. split; vm_compute; reflexivity. Qed.

(** A device timestamp close to [2^64] wraps when the offset is added. *)
Example timestamp_wraps :
  add_int (SInt (2 ^ 64 - 1)) 1000001 = Ok (SInt 1000000).
Proof. vm_compute. reflexivity. Qed.

(** ** Absent optional topics *)

Lemma optional_topic_absent (ulog : ULog) (name : string) (e : exn) :
  get_dataset ulog name = Raise e -> caught e = true ->
  optional_topic ulog name = Ok None.
Proof. unfold optional_topic. by intros -> ->. Qed.

Lemma optional_topic_without (fail : string -> option exn) (ulog : ULog)
  (name : string) (m : option dataset) :
  (forall n e, fail n = Some e -> caught e = true) ->
  optional_topic ulog name = Ok m ->
  optional_topic (without fail ulog) name = Ok (masked fail name None m).
Proof.
  intros Hc H. unfold optional_topic, without, masked. cbn [get_dataset].
  destruct (fail name) as [e|] eqn:E; [| exact H].
  by rewrite (Hc _ _ E).
Qed.

Lemma if_not_none_masked (fail : string -> option exn) (name : string)
  (m : option dataset) (body : dataset -> nat -> result record)
  (rs : list record) :
  if_not_none m body = Ok rs ->
  if_not_none (masked fail name None m) body = Ok (masked fail name [] rs).
Proof. unfold masked. by destruct (fail name). Qed.

Lemma manual_masked (fail : string -> option exn) (name : string)
  (m : option dataset) (utc_offset : Z) (rs : list record) :
  manual_control_setpoint_records m utc_offset = Ok rs ->
  manual_control_setpoint_records (masked fail name None m) utc_offset
  = Ok (masked fail name [] rs).
Proof. unfold masked. by destruct (fail name). Qed.

Lemma actuator_outputs_masked (fail : string -> option exn) (name : string)
  (m : option dataset) (utc_offset : Z) (rs : list record) :
  actuator_outputs_records m utc_offset = Ok rs ->
  actuator_outputs_records (masked fail name None m) utc_offset
  = Ok (masked fail name [] rs).
Proof. unfold masked. by destruct (fail name). Qed.

Lemma render_masked (fail : string -> option exn) (name : string)
  (rs : list record) :
  render_series render_record (masked fail name [] rs)
  = masked fail name empty_series (render_series render_record rs).
Proof. unfold masked. by destruct (fail name). Qed.

Lemma required_not_optional (name : string) :
  name ∈ required_names -> name ∉ optional_topics.
Proof.
  unfold required_names. intros Hin.
  repeat (apply elem_of_cons in Hin as [-> | Hin]); [| | | by inversion Hin];
    compute_done.
Qed.

Lemma required_topics_without (fail : string -> option exn) (ulog : ULog) :
  (forall n e, fail n = Some e -> n ∈ optional_topics) ->
  required_topics (without fail ulog) = required_topics ulog.
Proof.
  intros Hf.
  assert (Hnone : forall n, n ∈ required_names -> fail n = None).
  { intros n Hn. destruct (fail n) as [e|] eqn:E; [| done].
    exfalso. by apply (required_not_optional n Hn), (Hf n e). }
  unfold required_topics, without. cbn [get_dataset].
  rewrite !Hnone by (unfold required_names; repeat constructor).
  reflexivity.
Qed.

(** Rewrite the next step of a chain of binds with what is known of it. *)
Ltac step_with fail :=
  match goal with
  | E : optional_topic ?u ?n = Ok ?m
    |- context [optional_topic (without fail ?u) ?n] =>
      rewrite (optional_topic_without fail u n m); [| assumption | exact E]
  | E : if_not_none ?m ?body = Ok ?rs
    |- context [if_not_none (masked fail ?n None ?m) ?body] =>
      rewrite (if_not_none_masked fail n m body rs E)
  | E : manual_control_setpoint_records ?m ?o = Ok ?rs
    |- context [manual_control_setpoint_records (masked fail ?n None ?m) ?o] =>
      rewrite (manual_masked fail n m o rs E)
  | E : actuator_outputs_records ?m ?o = Ok ?rs
    |- context [actuator_outputs_records (masked fail ?n None ?m) ?o] =>
      rewrite (actuator_outputs_masked fail n m o rs E)
  | E : ?c = Ok _ |- context [bind ?c _] => rewrite E
  end; cbn [bind].

Lemma page_without (get_flight_mode_changes : ULog -> list (Z * Z))
  (flight_modes_table : gmap Z (string * string)) (bing cesium log : string)
  (ulog : ULog) (gps_pos attitude : dataset) (fail : string -> option exn)
  (p : Page) :
  (forall n e, fail n = Some e -> caught e = true) ->
  get_flight_mode_changes (without fail ulog) = get_flight_mode_changes ulog ->
  page get_flight_mode_changes flight_modes_table bing cesium log ulog
    gps_pos attitude = Ok p ->
  page get_flight_mode_changes flight_modes_table bing cesium log
    (without fail ulog) gps_pos attitude = Ok (blank fail p).
Proof.
  intros Hc Hchanges H. unfold page in *. rewrite Hchanges.
  invert_ok H.
  repeat step_with fail.
  change (initial_parameters (without fail ulog)) with (initial_parameters ulog).
  destruct (vehicle_model (initial_parameters ulog !! "MAV_TYPE"%string))
    as [scale uri].
  injection H as <-. unfold blank. cbn. rewrite !render_masked. reflexivity.
Qed.

(** C5. An optional topic whose lookup raises a missing key, index or
    value error is absent: its series is the empty sequence and nothing is
    raised. Whatever set of optional topics is absent from a log that
    renders, the log still renders, and every other value of the page is
    what it was. *)
Theorem optional_topics_independent :
  (forall (ulog : ULog) (name : string) (e : exn),
     get_dataset ulog name = Raise e -> caught e = true ->
     optional_topic ulog name = Ok None) /\
  (forall utc_offset : Z,
     manual_control_setpoint_records None utc_offset = Ok []) /\
  (forall body : dataset -> nat -> result record,
     if_not_none None body = Ok []) /\
  (forall utc_offset : Z, actuator_outputs_records None utc_offset = Ok []) /\
  empty_series = "[  ]"%string /\
  (forall (get_flight_mode_changes : ULog -> list (Z * Z))
          (flight_modes_table : gmap Z (string * string))
          (bing cesium log : string) (ulog : ULog)
          (fail : string -> option exn) (p : Page),
     (forall n e, fail n = Some e -> n ∈ optional_topics /\ caught e = true) ->
     get_flight_mode_changes (without fail ulog)
     = get_flight_mode_changes ulog ->
     serve get_flight_mode_changes flight_modes_table bing cesium log ulog
     = Rendered p ->
     serve get_flight_mode_changes flight_modes_table bing cesium log
       (without fail ulog)
     = Rendered (blank fail p)).
Proof.
  split; [exact optional_topic_absent |].
  do 4 (split; [reflexivity |]).
  intros changes table bing cesium log ulog fail p Hf Hchanges H.
  unfold serve in *.
  rewrite required_topics_without by (intros n e E; apply (Hf n e E)).
  destruct (required_topics ulog) as [[[gps_pos glob] attitude]|e].
  - destruct (page changes table bing cesium log ulog gps_pos attitude)
      as [p'|e] eqn:E; [| discriminate H].
    injection H as ->.
    rewrite (page_without changes table bing cesium log ulog gps_pos attitude
               fail p); [reflexivity | | assumption | assumption].
    intros n e He. apply (Hf n e He).
  - destruct (caught e); discriminate H.
Qed.


Lemma optional_topics_independent_witness :
  let fail := fun name : string =>
    if bool_decide (name ∈ optional_topics) then Some KeyError else None in
  (forall n e, fail n = Some e -> n ∈ optional_topics /\ caught e = true) /\
  exists p,
    Sample.serve (Sample.ulog 4) = Rendered p /\
    Sample.serve (without fail (Sample.ulog 4)) = Rendered (blank fail p).
Proof.
  intros fail.
  assert (Hf : forall n e, fail n = Some e ->
                           n ∈ optional_topics /\ caught e = true).
  { intros n e. unfold fail. case_bool_decide as Hn; [| discriminate].
    intros [= <-]. split; [exact Hn | reflexivity]. }
  split; [exact Hf |].
  unfold Sample.serve.
  destruct (serve (fun _ => Sample.flight_mode_changes)
              Sample.flight_modes_table "bing" "cesium" "sample"
              (Sample.ulog 4)) as [p| | |] eqn:E;
    try (vm_compute in E; discriminate E).
  exists p. split; [reflexivity |].
  exact (proj2 (proj2 (proj2 (proj2 (proj2 optional_topics_independent))))
           (fun _ => Sample.flight_mode_changes) Sample.flight_modes_table
           "bing"%string "cesium"%string "sample"%string (Sample.ulog 4)
           fail p Hf eq_refl E).
Defined.

(** ** Records, field by field *)

Lemma for_each_lookup {A B : Type} (body : A -> result B) (xs : list A)
  (bs : list B) (i : nat) (x : A) :
  for_each body xs = Ok bs -> xs !! i = Some x ->
  exists b, bs !! i = Some b /\ body x = Ok b.
Proof.
  intros H Hx. apply for_each_ok in H.
  destruct (Forall2_lookup_l _ _ _ _ _ H Hx) as (b & Hb & Hbody). eauto.
Qed.



(** Pair the next channel with the sample it was printed from. *)
Ltac field_read :=
  match goal with
  | E : sample ?d ?f ?i = Ok ?v
    |- exists v', sample ?d ?f ?i = Ok v' /\ _ =>
      exists v; split; [exact E | reflexivity]
  end.

Ltac fields_read :=
  cbn [series_fields map channels];
  repeat (constructor; [cbn [fst snd]; field_read |]); constructor.

Lemma series_record_reads (s : series) (utc_offset : Z) (d : dataset)
  (i : nat) (r : record) :
  series_record s utc_offset d i = Ok r ->
  Forall2 (fun field c => exists v, sample d (fst field) i = Ok v /\
                                    c = snd field v)
    (series_fields s) (channels r).
Proof.
  destruct s; cbn [series_record]; intros H.
  - unfold manual_control_setpoint_record in H. invert_ok H. subst r.
    fields_read.
  - apply bind_ok in H as ([dt r'] & H & Hr). injection Hr as <-.
    unfold position_record in H. invert_ok H. subst. fields_read.
  - unfold attitude_record in H. invert_ok H. subst r. fields_read.
  - unfold vehicle_rates_setpoint_record in H. invert_ok H. subst r.
    fields_read.
  - unfold sensor_combined_record in H. invert_ok H. subst r. fields_read.
  - unfold vehicle_attitude_setpoint_record in H. invert_ok H. subst r.
    fields_read.
  - unfold vehicle_local_position_record in H. invert_ok H. subst r.
    fields_read.
  - unfold vehicle_local_position_record in H. invert_ok H. subst r.
    fields_read.
  - unfold actuator_outputs_record in H.
    apply bind_ok in H as (dt & _ & H).
    apply bind_ok in H as (xs & Hxs & H).
    apply bind_ok in H as (vs & Hvs & H). injection H as <-.
    destruct max_outputs as [m|x]; [| discriminate Hxs].
    injection Hxs as <-. cbn [series_fields channels].
    apply for_each_ok in Hvs.
    apply Forall2_fmap. eapply Forall2_impl; [exact Hvs |].
    intros x v Hv. exists v. by split.
  - unfold actuator_controls_0_record in H. invert_ok H. subst r.
    fields_read.
Qed.

Lemma sample_field (d : dataset) (name : string) (i : nat) (v : scalar) :
  sample d name i = Ok v ->
  exists a, d !! name = Some a /\ (i < array_len a)%nat.
Proof.
  unfold sample, field. destruct (d !! name) as [a|]; [| discriminate].
  cbn [bind]. intros H. exists a. split; [done |].
  destruct a as [l|l]; cbn [getitem array_len] in *;
    destruct (l !! i) eqn:E; try discriminate;
    by apply lookup_lt_Some in E.
Qed.

(** X1. A record is emitted only when every field of its series has a
    sample at that index: its channels are those samples, one per field,
    printed by the format of the field, in the order of the series; and
    every field is present in the topic and long enough. *)
Theorem series_record_fields (s : series) (utc_offset : Z) (d : dataset)
  (i : nat) (r : record) :
  series_record s utc_offset d i = Ok r ->
  Forall2 (fun field c => exists v, sample d (fst field) i = Ok v /\
                                    c = snd field v)
    (series_fields s) (channels r) /\
  length (channels r) = length (series_fields s) /\
  Forall (fun field => exists a, d !! fst field = Some a /\
                                 (i < array_len a)%nat)
    (series_fields s).
Proof.
  intros H. apply series_record_reads in H.
  split; [exact H |]. split.
  - symmetry. eapply Forall2_length, H.
  - apply Forall_forall. intros field Hin.
    apply list_elem_of_lookup in Hin as [j Hj].
    destruct (Forall2_lookup_l _ _ _ _ _ H Hj) as (c & _ & v & Hv & _).
    eapply sample_field, Hv.
Qed.

Lemma series_record_fields_witness :
  exists r,
    series_record Attitude Sample.epoch Sample.attitude 0 = Ok r /\
    Forall2 (fun field c =>
               exists v, sample Sample.attitude (fst field) 0 = Ok v /\
                         c = snd field v)
      (series_fields Attitude) (channels r) /\
    length (channels r) = length (series_fields Attitude) /\
    Forall (fun field => exists a, Sample.attitude !! fst field = Some a /\
                                   (0 < array_len a)%nat)
      (series_fields Attitude).
Proof.
  destruct (series_record Attitude Sample.epoch Sample.attitude 0)
    as [r|e] eqn:E.
  - exists r. split; [reflexivity |].
    exact (series_record_fields Attitude Sample.epoch Sample.attitude 0 r E).
  - vm_compute in E. discriminate E.
Defined.






(** ** Series, sample by sample *)

Lemma range_lookup (n i : nat) : (i < n)%nat -> range n !! i = Some i.
Proof. intros H. unfold range. by rewrite lookup_seq_lt. Qed.

Lemma sample_indices_timestamp (d : dataset) (timestamp : ndarray) :
  d !! "timestamp"%string = Some timestamp ->
  sample_indices d = Ok (range (array_len timestamp)).
Proof. intros H. unfold sample_indices, field. by rewrite H. Qed.

Lemma loop_in_sample_order (s : series) (utc_offset : Z) (d : dataset)
  (timestamp : ndarray) (rs : list record) :
  for_each (series_record s utc_offset d) (range (array_len timestamp)) = Ok rs ->
  in_sample_order s utc_offset d timestamp rs.
Proof.
  intros H. split.
  - rewrite (for_each_length _ _ _ H). unfold range. apply length_seq.
  - intros i Hi. eapply for_each_lookup; [exact H | by apply range_lookup].
Qed.

(** X3. Each series holds exactly one record per sample of its topic, in
    sample order: the record at position [i] is the one built from sample
    [i]. *)
Theorem records_in_sample_order (d : dataset) (utc_offset : Z)
  (timestamp : ndarray) :
  d !! "timestamp"%string = Some timestamp ->
  (forall s rs,
     if_not_none (Some d) (series_record s utc_offset) = Ok rs ->
     in_sample_order s utc_offset d timestamp rs) /\
  (forall rs,
     manual_control_setpoint_records (Some d) utc_offset = Ok rs ->
     in_sample_order Manual_control utc_offset d timestamp rs) /\
  (forall ps,
     position d utc_offset = Ok ps ->
     in_sample_order Position utc_offset d timestamp (map snd ps)) /\
  (forall rs,
     attitude_records d utc_offset = Ok rs ->
     in_sample_order Attitude utc_offset d timestamp rs) /\
  (forall rs,
     actuator_outputs_records (Some d) utc_offset = Ok rs ->
     exists noutputs max_outputs,
       d !! "noutputs"%string = Some noutputs /\
       amax noutputs = Ok max_outputs /\
       in_sample_order (Actuator_outputs max_outputs) utc_offset d timestamp rs).
Proof.
  intros Hts. pose proof (sample_indices_timestamp d timestamp Hts) as Hidx.
  split; [| split; [| split; [| split]]].
  - intros s rs H. cbn [if_not_none] in H. rewrite Hidx in H.
    by apply loop_in_sample_order.
  - intros rs H. cbn [manual_control_setpoint_records] in H.
    destruct (truthy d) eqn:Ht.
    + rewrite Hidx in H. by apply (loop_in_sample_order Manual_control).
    + apply truthy_false_empty in Ht. subst d. by rewrite lookup_empty in Hts.
  - intros ps H. unfold position in H. rewrite Hidx in H. cbn [bind] in H.
    split.
    + rewrite length_map, (for_each_length _ _ _ H). unfold range.
      apply length_seq.
    + intros i Hi.
      destruct (for_each_lookup _ _ _ i i H (range_lookup _ _ Hi))
        as (b & Hb & Hrec).
      exists (snd b). split.
      * by rewrite list_lookup_fmap, Hb.
      * cbn [series_record]. by rewrite Hrec.
  - intros rs H. unfold attitude_records in H. rewrite Hidx in H.
    by apply (loop_in_sample_order Attitude).
  - intros rs H. cbn [actuator_outputs_records] in H.
    apply bind_ok in H as (noutputs & Hn & H).
    apply bind_ok in H as (max_outputs & Hmax & H).
    cbn zeta in H. rewrite Hidx in H. cbn [bind] in H.
    exists noutputs, max_outputs. split; [| split; [exact Hmax |]].
    + unfold field in Hn. destruct (d !! "noutputs"%string); [| discriminate].
      by injection Hn as ->.
    + by apply (loop_in_sample_order (Actuator_outputs max_outputs)).
Qed.

Lemma records_in_sample_order_witness :
  Sample.gps_pos !! "timestamp"%string
  = Some (IntArray [1000000; 2000000; 3000000; 4000000]) /\
  exists ps,
    position Sample.gps_pos Sample.epoch = Ok ps /\
    in_sample_order Position Sample.epoch Sample.gps_pos
      (IntArray [1000000; 2000000; 3000000; 4000000]) (map snd ps).
Proof.
  split; [reflexivity |].
  destruct (position Sample.gps_pos Sample.epoch) as [ps|e] eqn:E;
    [| vm_compute in E; discriminate E].
  exists ps. split; [reflexivity |].
  exact (proj1 (proj2 (proj2
           (records_in_sample_order Sample.gps_pos Sample.epoch
              (IntArray [1000000; 2000000; 3000000; 4000000]) eq_refl)))
           ps E).
Defined.

(** ** Topics without samples *)

(** X4. A topic that is present with zero samples gives the empty series,
    whatever its other fields are (they are not read), for the manual
    control series and for every series gated by [is not None]; the
    actuator outputs series instead raises [ValueError], from the maximum
    of the empty [noutputs] array. *)
Theorem zero_samples (d : dataset) (timestamp : ndarray) (utc_offset : Z) :
  d !! "timestamp"%string = Some timestamp ->
  array_len timestamp = 0%nat ->
  (forall body : dataset -> nat -> result record,
     if_not_none (Some d) body = Ok []) /\
  manual_control_setpoint_records (Some d) utc_offset = Ok [] /\
  (forall noutputs,
     d !! "noutputs"%string = Some noutputs ->
     array_len noutputs = 0%nat ->
     actuator_outputs_records (Some d) utc_offset = Raise ValueError).
Proof.
  intros Hts Hlen.
  pose proof (sample_indices_timestamp d timestamp Hts) as Hidx.
  rewrite Hlen in Hidx.
  split; [| split].
  - intros body. cbn [if_not_none]. by rewrite Hidx.
  - cbn [manual_control_setpoint_records].
    destruct (truthy d); [by rewrite Hidx | done].
  - intros noutputs Hn Hzero. cbn [actuator_outputs_records]. unfold field.
    rewrite Hn. cbn [bind].
    by destruct noutputs as [[|z l]|[|x l]].
Qed.

Lemma zero_samples_witness :
  let d : dataset := {[ "timestamp"%string := IntArray [];
                        "noutputs"%string := IntArray [] ]} in
  d !! "timestamp"%string = Some (IntArray []) /\
  array_len (IntArray []) = 0%nat /\
  if_not_none (Some d) (vehicle_rates_setpoint_record Sample.epoch) = Ok [] /\
  actuator_outputs_records (Some d) Sample.epoch = Raise ValueError.
Proof.
  intros d.
  assert (Hts : d !! "timestamp"%string = Some (IntArray [])) by reflexivity.
  split; [exact Hts |]. split; [reflexivity |].
  destruct (zero_samples d (IntArray []) Sample.epoch Hts eq_refl)
    as (Hnone & _ & Hout).
  split; [apply Hnone |].
  apply (Hout (IntArray [])); reflexivity.
Defined.

(** ** Precision of the channels *)

Lemma series_fields_format (s : series) :
  s <> Position ->
  Forall (fun field => snd field = format_scalar (series_precision s))
    (series_fields s).
Proof.
  intros Hs. destruct s; try (by destruct Hs);
    try (by cbn [series_fields map series_precision]; repeat constructor).
  destruct max_outputs as [m|x]; cbn [series_fields]; [| constructor].
  apply Forall_fmap, Forall_forall. by intros x _.
Qed.

(** X5. In every series that prints its samples unscaled, a record built
    from finite samples has exactly three decimals per channel for manual
    control and six for all other series. *)
Theorem channel_decimals (s : series) (utc_offset : Z) (d : dataset)
  (i : nat) (r : record) :
  s <> Position ->
  series_record s utc_offset d i = Ok r ->
  Forall (fun field =>
            forall v, sample d (fst field) i = Ok v ->
                      Float.is_finite (to_float v) = true)
    (series_fields s) ->
  Forall (fun c => decimal_places c = Some (series_precision s)) (channels r).
Proof.
  intros Hs H Hfin. apply series_record_reads in H.
  pose proof (series_fields_format s Hs) as Hfmt.
  assert (Hp : (0 < series_precision s)%nat) by (destruct s; simpl; lia).
  clear Hs. revert Hfin Hfmt.
  induction H as [|field c fields cs (v & Hv & ->) _ IH];
    intros Hfin Hfmt; [constructor |].
  apply Forall_cons in Hfin as [Hfin1 Hfin].
  apply Forall_cons in Hfmt as [Hfmt1 Hfmt].
  constructor; [| by apply IH].
  rewrite Hfmt1. unfold format_scalar.
  apply format_f_decimal_places; [exact Hp | by apply Hfin1].
Qed.

Lemma channel_decimals_witness :
  Attitude <> Position /\
  exists r,
    series_record Attitude Sample.epoch Sample.attitude 0 = Ok r /\
    Forall (fun field =>
              forall v, sample Sample.attitude (fst field) 0 = Ok v ->
                        Float.is_finite (to_float v) = true)
      (series_fields Attitude) /\
    Forall (fun c => decimal_places c = Some 6%nat) (channels r).
Proof.
  split; [discriminate |].
  destruct (series_record Attitude Sample.epoch Sample.attitude 0)
    as [r|e] eqn:E; [| vm_compute in E; discriminate E].
  exists r. split; [reflexivity |].
  assert (F : Forall (fun field =>
                forall v, sample Sample.attitude (fst field) 0 = Ok v ->
                          Float.is_finite (to_float v) = true)
              (series_fields Attitude)).
  { repeat constructor; intros v Hv; vm_compute in Hv; injection Hv as <-;
      reflexivity. }
  split; [exact F |].
  exact (channel_decimals Attitude Sample.epoch Sample.attitude 0 r
           ltac:(discriminate) E F).
Defined.

(** ** Timestamps and takeoff values of the page *)

Lemma position_record_stamp (gps_pos : dataset) (utc_offset : Z) (i : nat)
  (dt : datetime) (r : record) :
  position_record gps_pos utc_offset i = Ok (dt, r) ->
  stamp r = Time.isoformat dt.
Proof.
  unfold position_record. intros H. invert_ok H. by subst.
Qed.

Lemma position_stamps (gps_pos : dataset) (utc_offset : Z)
  (ps : list (datetime * record)) (b : datetime * record) :
  position gps_pos utc_offset = Ok ps -> b ∈ ps ->
  stamp (snd b) = Time.isoformat (fst b).
Proof.
  unfold position. intros H Hb. apply bind_ok in H as (idx & _ & H).
  destruct (for_each_elem _ _ _ _ H Hb) as (i & _ & Hi).
  destruct b as [dt r]. eapply position_record_stamp, Hi.
Qed.

Lemma last_fst {A B : Type} (l : list (A * B)) (a : A) (b : A * B) :
  last l = Some b -> List.last (map fst l) a = fst b.
Proof.
  revert a. induction l as [|x l IH]; intros a; [done |].
  destruct l as [|y l].
  - by intros [= <-].
  - intros H. change (List.last (map fst (y :: l)) a = fst b).
    by apply IH.
Qed.

(** What a rendered page fixes about the takeoff, the offset, the
    positions and the three scalar timestamps. *)
Lemma page_steps (get_flight_mode_changes : ULog -> list (Z * Z))
  (flight_modes_table : gmap Z (string * string)) (bing cesium log : string)
  (ulog : ULog) (gps_pos attitude : dataset) (p : Page) :
  page get_flight_mode_changes flight_modes_table bing cesium log ulog
    gps_pos attitude = Ok p ->
  exists (k : nat) (offset : Z) (ps : list (datetime * record))
         (first : datetime * record) (boot : datetime),
    takeoff_index gps_pos = Ok k /\
    takeoff_altitude gps_pos k = Ok (takeoff_altitude_str p) /\
    takeoff_latitude gps_pos k = Ok (takeoff_latitude_str p) /\
    takeoff_longitude gps_pos k = Ok (takeoff_longitude_str p) /\
    utc_offset gps_pos k = Ok offset /\
    position gps_pos offset = Ok ps /\
    head ps = Some first /\
    utc_datetime (SInt offset) = Ok boot /\
    position_data p = render_series render_record (map snd ps) /\
    start_timestamp p = quoted (Time.isoformat (fst first)) /\
    end_timestamp p
    = quoted (Time.isoformat (List.last (map fst ps) (fst first))) /\
    boot_timestamp p = quoted (Time.isoformat boot).
Proof.
  unfold page. intros H. invert_ok H.
  destruct (vehicle_model (initial_parameters ulog !! "MAV_TYPE"%string))
    as [scale uri].
  injection H as <-. cbn.
  destruct v14 as [|[dt0 r0] ps]; [discriminate E15 |].
  injection E15 as <-.
  exists v7, v11, ((dt0, r0) :: ps), (dt0, r0), v16.
  by repeat (split; [assumption || reflexivity |]).
Qed.

(** X6. On a rendered page the start and end timestamps are the stamps of
    the first and of the last position record, and the boot timestamp is
    the ISO time of the UTC offset itself. *)
Theorem page_timestamps (get_flight_mode_changes : ULog -> list (Z * Z))
  (flight_modes_table : gmap Z (string * string)) (bing cesium log : string)
  (ulog : ULog) (gps_pos attitude : dataset) (p : Page) :
  page get_flight_mode_changes flight_modes_table bing cesium log ulog
    gps_pos attitude = Ok p ->
  exists (k : nat) (offset : Z) (ps : list (datetime * record))
         (first final : datetime * record) (boot : datetime),
    takeoff_index gps_pos = Ok k /\
    utc_offset gps_pos k = Ok offset /\
    position gps_pos offset = Ok ps /\
    position_data p = render_series render_record (map snd ps) /\
    head ps = Some first /\
    last ps = Some final /\
    start_timestamp p = quoted (stamp (snd first)) /\
    end_timestamp p = quoted (stamp (snd final)) /\
    utc_datetime (SInt offset) = Ok boot /\
    boot_timestamp p = quoted (Time.isoformat boot).
Proof.
  intros H. apply page_steps in H
    as (k & offset & ps & first & boot & Hk & _ & _ & _ & Hoff & Hps &
        Hfirst & Hboot & Hdata & Hstart & Hend & Hb).
  destruct (last ps) as [final|] eqn:Hlast.
  2: { apply last_None in Hlast. subst ps. discriminate Hfirst. }
  exists k, offset, ps, first, final, boot.
  repeat (split; [assumption || reflexivity |]).
  split; [| split; [| split; [| exact Hb]]].
  - rewrite Hstart. f_equal. symmetry.
    apply (position_stamps gps_pos offset ps first Hps).
    destruct ps; [discriminate |]. injection Hfirst as <-. left.
  - rewrite Hend, (last_fst ps (fst first) final Hlast). f_equal. symmetry.
    apply (position_stamps gps_pos offset ps final Hps).
    apply last_Some in Hlast as [l' ->]. set_solver.
  - exact Hboot.
Qed.

Lemma page_timestamps_witness :
  exists p,
    page (fun _ => Sample.flight_mode_changes) Sample.flight_modes_table
      "bing" "cesium" "sample" (Sample.ulog 4) Sample.gps_pos Sample.attitude
    = Ok p /\
    exists (k : nat) (offset : Z) (ps : list (datetime * record))
           (first final : datetime * record) (boot : datetime),
      takeoff_index Sample.gps_pos = Ok k /\
      utc_offset Sample.gps_pos k = Ok offset /\
      position Sample.gps_pos offset = Ok ps /\
      position_data p = render_series render_record (map snd ps) /\
      head ps = Some first /\
      last ps = Some final /\
      start_timestamp p = quoted (stamp (snd first)) /\
      end_timestamp p = quoted (stamp (snd final)) /\
      utc_datetime (SInt offset) = Ok boot /\
      boot_timestamp p = quoted (Time.isoformat boot).
Proof.
  destruct (page (fun _ => Sample.flight_mode_changes) Sample.flight_modes_table
              "bing" "cesium" "sample" (Sample.ulog 4) Sample.gps_pos
              Sample.attitude) as [p|e] eqn:E.
  - exists p. split; [reflexivity |].
    exact (page_timestamps (fun _ => Sample.flight_mode_changes)
             Sample.flight_modes_table "bing"%string "cesium"%string
             "sample"%string (Sample.ulog 4) Sample.gps_pos Sample.attitude
             p E).
  - vm_compute in E. discriminate E.
Defined.

Lemma sample_in_range (d : dataset) (timestamp : ndarray) (i : nat)
  (v : scalar) :
  d !! "timestamp"%string = Some timestamp ->
  sample d "timestamp" i = Ok v -> (i < array_len timestamp)%nat.
Proof.
  intros Hts Hv. apply sample_field in Hv as (a & Ha & Hi).
  rewrite Hts in Ha. by injection Ha as <-.
Qed.

Lemma utc_offset_in_range (gps_pos : dataset) (k : nat) (offset : Z) :
  utc_offset gps_pos k = Ok offset ->
  exists timestamp, gps_pos !! "timestamp"%string = Some timestamp /\
                    (k < array_len timestamp)%nat.
Proof.
  intros H. apply utc_offset_difference in H
    as (u & t & utc & boot & _ & _ & Ht & _).
  by apply sample_field in Ht.
Qed.

Lemma position_at (gps_pos : dataset) (utc_offset : Z) (timestamp : ndarray)
  (ps : list (datetime * record)) (k : nat) :
  gps_pos !! "timestamp"%string = Some timestamp ->
  (k < array_len timestamp)%nat ->
  position gps_pos utc_offset = Ok ps ->
  exists b, ps !! k = Some b /\ position_record gps_pos utc_offset k = Ok b.
Proof.
  intros Hts Hk H. unfold position in H.
  rewrite (sample_indices_timestamp _ _ Hts) in H. cbn [bind] in H.
  eapply for_each_lookup; [exact H | by apply range_lookup].
Qed.

(** X7. Once the UTC offset has been computed, the position loop runs at
    least once: the takeoff sample is among the positions, so
    [start_timestamp] is always bound when it is read. *)
Theorem position_covers_takeoff (gps_pos : dataset) (k : nat)
  (offset shift : Z) (ps : list (datetime * record)) :
  utc_offset gps_pos k = Ok offset ->
  position gps_pos shift = Ok ps ->
  (k < length ps)%nat /\ ps <> [] /\
  exists b, ps !! k = Some b /\ position_record gps_pos shift k = Ok b.
Proof.
  intros Hoff Hps.
  destruct (utc_offset_in_range gps_pos k offset Hoff) as (ts & Hts & Hk).
  destruct (position_at gps_pos shift ts ps k Hts Hk Hps) as (b & Hb & Hrec).
  pose proof (lookup_lt_Some _ _ _ Hb) as Hlt.
  split; [exact Hlt |]. split; [| by exists b].
  intros ->. simpl in Hlt. lia.
Qed.

Lemma position_covers_takeoff_witness :
  utc_offset Sample.gps_pos 2 = Ok Sample.epoch /\
  exists ps,
    position Sample.gps_pos Sample.epoch = Ok ps /\
    (2 < length ps)%nat /\ ps <> [] /\
    exists b, ps !! 2%nat = Some b /\
              position_record Sample.gps_pos Sample.epoch 2 = Ok b.
Proof.
  assert (Hoff : utc_offset Sample.gps_pos 2 = Ok Sample.epoch)
    by (vm_compute; reflexivity).
  split; [exact Hoff |].
  destruct (position Sample.gps_pos Sample.epoch) as [ps|e] eqn:E;
    [| vm_compute in E; discriminate E].
  exists ps. split; [reflexivity |].
  exact (position_covers_takeoff Sample.gps_pos 2 Sample.epoch Sample.epoch
           ps Hoff E).
Defined.

(** X8. On a rendered page the takeoff longitude, latitude and altitude
    are the three channels of the position record at the takeoff index. *)
Theorem takeoff_is_position_record
  (get_flight_mode_changes : ULog -> list (Z * Z))
  (flight_modes_table : gmap Z (string * string)) (bing cesium log : string)
  (ulog : ULog) (gps_pos attitude : dataset) (p : Page) :
  page get_flight_mode_changes flight_modes_table bing cesium log ulog
    gps_pos attitude = Ok p ->
  exists (k : nat) (offset : Z) (ps : list (datetime * record))
         (dt : datetime) (r : record),
    takeoff_index gps_pos = Ok k /\
    utc_offset gps_pos k = Ok offset /\
    position gps_pos offset = Ok ps /\
    position_data p = render_series render_record (map snd ps) /\
    ps !! k = Some (dt, r) /\
    channels r = [takeoff_longitude_str p; takeoff_latitude_str p;
                  takeoff_altitude_str p].
Proof.
  intros H. apply page_steps in H
    as (k & offset & ps & first & boot & Hk & Halt & Hlat & Hlon & Hoff &
        Hps & _ & _ & Hdata & _).
  destruct (utc_offset_in_range gps_pos k offset Hoff) as (ts & Hts & Hin).
  destruct (position_at gps_pos offset ts ps k Hts Hin Hps)
    as ([dt r] & Hb & Hrec).
  exists k, offset, ps, dt, r.
  repeat (split; [assumption |]).
  unfold position_record in Hrec. invert_ok Hrec. subst.
  unfold takeoff_altitude in Halt. invert_ok Halt.
  unfold takeoff_latitude in Hlat. invert_ok Hlat.
  unfold takeoff_longitude in Hlon. invert_ok Hlon.
  cbn [channels]. rewrite <- Halt, <- Hlat, <- Hlon.
  repeat match goal with
         | A : sample ?d ?f ?i = Ok ?x, B : sample ?d ?f ?i = Ok ?y |- _ =>
             rewrite A in B; injection B as <-
         end.
  reflexivity.
Qed.

Lemma takeoff_is_position_record_witness :
  exists p,
    page (fun _ => Sample.flight_mode_changes) Sample.flight_modes_table
      "bing" "cesium" "sample" (Sample.ulog 4) Sample.gps_pos Sample.attitude
    = Ok p /\
    exists (k : nat) (offset : Z) (ps : list (datetime * record))
           (dt : datetime) (r : record),
      takeoff_index Sample.gps_pos = Ok k /\
      utc_offset Sample.gps_pos k = Ok offset /\
      position Sample.gps_pos offset = Ok ps /\
      position_data p = render_series render_record (map snd ps) /\
      ps !! k = Some (dt, r) /\
      channels r = [takeoff_longitude_str p; takeoff_latitude_str p;
                    takeoff_altitude_str p].
Proof.
  destruct (page (fun _ => Sample.flight_mode_changes) Sample.flight_modes_table
              "bing" "cesium" "sample" (Sample.ulog 4) Sample.gps_pos
              Sample.attitude) as [p|e] eqn:E.
  - exists p. split; [reflexivity |].
    exact (takeoff_is_position_record (fun _ => Sample.flight_mode_changes)
             Sample.flight_modes_table "bing"%string "cesium"%string
             "sample"%string (Sample.ulog 4) Sample.gps_pos Sample.attitude
             p E).
  - vm_compute in E. discriminate E.
Defined.

(** ** Responses of the handler *)

Lemma required_topics_raise (ulog : ULog) (e : exn) :
  required_topics ulog = Raise e <-> first_required_failure ulog e.
Proof.
  unfold required_topics, first_required_failure, found.
  destruct (get_dataset ulog "vehicle_gps_position") as [gps|e1];
    cbn [bind].
  - destruct (get_dataset ulog "vehicle_global_position") as [glob|e2];
      cbn [bind].
    + destruct (get_dataset ulog "vehicle_attitude") as [att|e3]; cbn [bind].
      * split; [discriminate |].
        intros [H | [[_ H] | (_ & _ & H)]]; discriminate H.
      * split.
        -- intros [= <-]. right. right. eauto.
        -- intros [H | [[_ H] | (_ & _ & H)]]; try discriminate H.
           by injection H as <-.
    + split.
      * intros [= <-]. right. left. eauto.
      * intros [H | [[_ H] | (_ & [d H'] & _)]]; try discriminate.
        by injection H as <-.
  - split.
    + intros [= <-]. by left.
    + intros [H | [[[d H'] _] | ([d H'] & _)]]; try discriminate.
      by injection H as <-.
Qed.

Lemma required_topics_ok (ulog : ULog) (gps_pos glob attitude : dataset) :
  required_topics ulog = Ok (gps_pos, glob, attitude) <->
  get_dataset ulog "vehicle_gps_position" = Ok gps_pos /\
  get_dataset ulog "vehicle_global_position" = Ok glob /\
  get_dataset ulog "vehicle_attitude" = Ok attitude.
Proof.
  unfold required_topics.
  destruct (get_dataset ulog "vehicle_gps_position") as [d1|e1];
    cbn [bind]; [| split; [discriminate | by intros [? _]]].
  destruct (get_dataset ulog "vehicle_global_position") as [d2|e2];
    cbn [bind]; [| split; [discriminate | by intros (_ & ? & _)]].
  destruct (get_dataset ulog "vehicle_attitude") as [d3|e3];
    cbn [bind]; [| split; [discriminate | by intros (_ & _ & ?)]].
  split.
  - by intros [= <- <- <-].
  - by intros ([= <-] & [= <-] & [= <-]).
Qed.

Lemma caught_classes (e : exn) :
  caught e = true <-> e = KeyError \/ e = IndexError \/ e = ValueError.
Proof.
  destruct e; cbn [caught]; split; intros H; try discriminate H; auto;
    destruct H as [H | [H | H]]; discriminate H.
Qed.

(** X9. On a loaded log the three required topics are looked up in the
    order GPS position, global position, attitude. The response is the
    missing-topic error, with status 400 and the fixed message, exactly
    when the first lookup that raises does so with [KeyError], [IndexError]
    or [ValueError]; with any other exception the request fails with that
    exception; and a page is rendered exactly when the three lookups
    succeed and the page built from the GPS and attitude data does. *)
Theorem serve_responses (get_flight_mode_changes : ULog -> list (Z * Z))
  (flight_modes_table : gmap Z (string * string)) (bing cesium log : string)
  (ulog : ULog) :
  let response :=
    serve get_flight_mode_changes flight_modes_table bing cesium log ulog in
  (forall status message,
     response = CustomHTTPError status message <->
     status = 400 /\ message = missing_topics_message /\
     exists e, first_required_failure ulog e /\
               (e = KeyError \/ e = IndexError \/ e = ValueError)) /\
  (forall e,
     first_required_failure ulog e ->
     e <> KeyError -> e <> IndexError -> e <> ValueError ->
     response = Uncaught e) /\
  (forall p,
     response = Rendered p <->
     exists gps_pos vehicle_global_position attitude,
       get_dataset ulog "vehicle_gps_position" = Ok gps_pos /\
       get_dataset ulog "vehicle_global_position"
       = Ok vehicle_global_position /\
       get_dataset ulog "vehicle_attitude" = Ok attitude /\
       page get_flight_mode_changes flight_modes_table bing cesium log ulog
         gps_pos attitude = Ok p).
Proof.
  intros response. subst response. unfold serve.
  destruct (required_topics ulog) as [[[gps_pos glob] attitude]|e] eqn:E.
  - apply required_topics_ok in E as (Hg & Hv & Ha).
    assert (Hnone : forall e, ~ first_required_failure ulog e).
    { intros e [H | [[_ H] | (_ & _ & H)]]; congruence. }
    split; [| split].
    + intros status message. split.
      * by destruct (page _ _ _ _ _ _ _ _).
      * intros (_ & _ & e & He & _). by destruct (Hnone e).
    + intros e He. by destruct (Hnone e).
    + intros p. split.
      * destruct (page get_flight_mode_changes flight_modes_table bing
                    cesium log ulog gps_pos attitude) as [p'|e'] eqn:Ep;
          [| discriminate].
        intros [= <-]. by exists gps_pos, glob, attitude.
      * intros (g & v & a & Hg' & Hv' & Ha' & Hp).
        assert (g = gps_pos) as -> by congruence.
        assert (a = attitude) as -> by congruence.
        by rewrite Hp.
  - pose proof (proj1 (required_topics_raise ulog e) E) as He.
    assert (Hsame : forall e', first_required_failure ulog e' -> e' = e).
    { intros e' He'. apply required_topics_raise in He'. congruence. }
    split; [| split].
    + intros status message. destruct (caught e) eqn:Hc.
      * split.
        -- intros [= <- <-]. split; [done |]. split; [done |].
           exists e. split; [exact He | by apply caught_classes].
        -- by intros (-> & -> & _).
      * split; [discriminate |].
        intros (_ & _ & e' & He' & Hclass).
        apply Hsame in He' as ->. apply caught_classes in Hclass. congruence.
    + intros e' He' H1 H2 H3. apply Hsame in He' as ->.
      destruct (caught e) eqn:Hc; [| reflexivity].
      apply caught_classes in Hc as [-> | [-> | ->]]; congruence.
    + intros p. split.
      * by destruct (caught e).
      * intros (g & v & a & Hg & Hv & Ha & _).
        assert (Hok : required_topics ulog = Ok (g, v, a))
          by (by apply required_topics_ok).
        congruence.
Qed.

Lemma serve_responses_witness :
  let broken := without (fun name =>
                  if String.eqb name "vehicle_global_position"
                  then Some ValueError else None) (Sample.ulog 4) in
  first_required_failure broken ValueError /\
  Sample.serve broken = CustomHTTPError 400 missing_topics_message.
Proof.
  intros broken.
  assert (H : first_required_failure broken ValueError).
  { right. left. split; [eexists; reflexivity | reflexivity]. }
  split; [exact H |].
  apply (proj1 (serve_responses (fun _ => Sample.flight_mode_changes)
                  Sample.flight_modes_table "bing"%string "cesium"%string
                  "sample"%string broken) 400 missing_topics_message).
  split; [reflexivity |]. split; [reflexivity |].
  exists ValueError. split; [exact H |]. right. right. reflexivity.
Defined.

(** ** Exceptions of optional lookups *)

Lemma optional_topic_settled (ulog : ULog) (name : string) :
  found ulog name \/ missing ulog name ->
  exists m, optional_topic ulog name = Ok m.
Proof.
  unfold optional_topic.
  intros [[d ->] | (e & -> & ->)]; by eexists.
Qed.

Lemma optional_topic_raises (ulog : ULog) (name : string) (e : exn) :
  get_dataset ulog name = Raise e -> caught e = false ->
  optional_topic ulog name = Raise e.
Proof. unfold optional_topic. by intros -> ->. Qed.

(** X10. Only the three named classes are swallowed: when the lookup of an
    optional topic raises anything else, and the other optional lookups
    succeed or fail quietly, the request fails with that exception. *)
Theorem optional_failure_propagates
  (get_flight_mode_changes : ULog -> list (Z * Z))
  (flight_modes_table : gmap Z (string * string)) (bing cesium log : string)
  (ulog : ULog) (gps_pos vehicle_global_position attitude : dataset)
  (name : string) (e : exn) :
  name ∈ optional_topics ->
  get_dataset ulog name = Raise e ->
  caught e = false ->
  (forall n, n ∈ optional_topics -> n <> name ->
             found ulog n \/ missing ulog n) ->
  required_topics ulog = Ok (gps_pos, vehicle_global_position, attitude) ->
  serve get_flight_mode_changes flight_modes_table bing cesium log ulog
  = Uncaught e.
Proof.
  intros Hin Hraise Hc Hothers Hreq.
  pose proof (optional_topic_raises ulog name e Hraise Hc) as Hfail.
  assert (Hok : forall n, n ∈ optional_topics -> n <> name ->
                          exists m, optional_topic ulog n = Ok m).
  { intros n Hn Hne. by apply optional_topic_settled, Hothers. }
  unfold serve. rewrite Hreq.
  assert (Hpage : page get_flight_mode_changes flight_modes_table bing cesium
                    log ulog gps_pos attitude = Raise e); [| by rewrite Hpage].
  clear Hothers Hraise Hreq. unfold page.
  unfold optional_topics in Hin, Hok.
  repeat (apply elem_of_cons in Hin as [-> | Hin]);
    [| | | | | | | | by inversion Hin];
    repeat
      (match goal with
       | |- bind (optional_topic ulog ?n) _ = _ =>
           first
             [ rewrite Hfail; reflexivity
             | let m := fresh "m" in
               let E := fresh "E" in
               destruct (Hok n ltac:(repeat constructor) ltac:(discriminate))
                 as [m E];
               rewrite E; cbn [bind] ]
       end).
Qed.

Lemma optional_failure_propagates_witness :
  let broken := without (fun name =>
                  if String.eqb name "sensor_combined" then Some TypeError
                  else None) (Sample.ulog 4) in
  Sample.serve broken = Uncaught TypeError.
Proof.
  intros broken.
  apply (optional_failure_propagates (fun _ => Sample.flight_mode_changes)
           Sample.flight_modes_table "bing"%string "cesium"%string
           "sample"%string broken Sample.gps_pos ∅ Sample.attitude
           "sensor_combined"%string TypeError).
  - unfold optional_topics. repeat constructor.
  - reflexivity.
  - reflexivity.
  - intros n Hn Hne. unfold optional_topics in Hn.
    repeat (apply elem_of_cons in Hn as [-> | Hn]);
      [| | | | | | | | by inversion Hn];
      first [ by destruct Hne
            | left; eexists; reflexivity
            | right; exists IndexError; split; reflexivity ].
  - reflexivity.
Defined.

(** ** The global position topic *)

Lemma with_topic_other (name other : string) (d : dataset) (ulog : ULog) :
  other <> name ->
  get_dataset (with_topic name d ulog) other = get_dataset ulog other.
Proof.
  intros Hne. cbn [with_topic get_dataset].
  by apply String.eqb_neq in Hne as ->.
Qed.

Lemma with_topic_same (name : string) (d : dataset) (ulog : ULog) :
  get_dataset (with_topic name d ulog) name = Ok d.
Proof. cbn [with_topic get_dataset]. by rewrite String.eqb_refl. Qed.

Lemma optional_topic_with_topic (name other : string) (d : dataset)
  (ulog : ULog) :
  other <> name ->
  optional_topic (with_topic name d ulog) other = optional_topic ulog other.
Proof. intros Hne. unfold optional_topic. by rewrite with_topic_other. Qed.

(** X11. The global position topic must be located, but its content is
    never read: two logs that differ only in the data of that topic get
    the same response. *)
Theorem global_position_unused
  (get_flight_mode_changes : ULog -> list (Z * Z))
  (flight_modes_table : gmap Z (string * string)) (bing cesium log : string)
  (ulog : ULog) (d d' : dataset) :
  get_flight_mode_changes (with_topic "vehicle_global_position" d ulog)
  = get_flight_mode_changes (with_topic "vehicle_global_position" d' ulog) ->
  serve get_flight_mode_changes flight_modes_table bing cesium log
    (with_topic "vehicle_global_position" d ulog)
  = serve get_flight_mode_changes flight_modes_table bing cesium log
      (with_topic "vehicle_global_position" d' ulog).
Proof.
  intros Hchanges. unfold serve, required_topics.
  rewrite !(with_topic_other "vehicle_global_position" "vehicle_gps_position")
    by discriminate.
  rewrite !(with_topic_other "vehicle_global_position" "vehicle_attitude")
    by discriminate.
  rewrite !with_topic_same.
  destruct (get_dataset ulog "vehicle_gps_position") as [gps_pos|e];
    cbn [bind]; [| done].
  destruct (get_dataset ulog "vehicle_attitude") as [attitude|e];
    cbn [bind]; [| done].
  assert (Hpage :
    page get_flight_mode_changes flight_modes_table bing cesium log
      (with_topic "vehicle_global_position" d ulog) gps_pos attitude
    = page get_flight_mode_changes flight_modes_table bing cesium log
        (with_topic "vehicle_global_position" d' ulog) gps_pos attitude).
  { unfold page. rewrite Hchanges.
    rewrite !(optional_topic_with_topic "vehicle_global_position")
      by discriminate.
    reflexivity. }
  by rewrite Hpage.
Qed.

Lemma global_position_unused_witness :
  Sample.serve (with_topic "vehicle_global_position" Sample.attitude
                  (Sample.ulog 4))
  = Sample.serve (with_topic "vehicle_global_position" ∅ (Sample.ulog 4)).
Proof.
  exact (global_position_unused (fun _ => Sample.flight_mode_changes)
           Sample.flight_modes_table "bing"%string "cesium"%string
           "sample"%string (Sample.ulog 4) Sample.attitude ∅ eq_refl).
Defined.

(** ** The request as a whole *)

Lemma page_identity (get_flight_mode_changes : ULog -> list (Z * Z))
  (flight_modes_table : gmap Z (string * string)) (bing cesium log : string)
  (ulog : ULog) (gps_pos attitude : dataset) (p : Page) :
  page get_flight_mode_changes flight_modes_table bing cesium log ulog
    gps_pos attitude = Ok p ->
  log_id p = log /\ bing_api_key p = bing /\ cesium_api_key p = cesium.
Proof.
  unfold page. intros H. invert_ok H.
  destruct (vehicle_model (initial_parameters ulog !! "MAV_TYPE"%string))
    as [scale uri].
  injection H as <-. by cbn.
Qed.

(** X12. An invalid log id is answered with status 400 and "Invalid
    Parameter" before anything is loaded; a failure of the loader is
    passed on; a loaded log with a missing required topic gives the
    missing-topic response; and a page rendered by the handler carries the
    requested log id and the configured keys. *)
Theorem get_responses (validate_log_id : string -> bool)
  (get_log_filename : string -> string)
  (load_ulog_file : string -> ULog + response)
  (get_flight_mode_changes : ULog -> list (Z * Z))
  (flight_modes_table : gmap Z (string * string)) (bing cesium log : string) :
  let response :=
    get validate_log_id get_log_filename load_ulog_file
      get_flight_mode_changes flight_modes_table bing cesium log in
  (validate_log_id log = false ->
   response = HTTPError 400 "Invalid Parameter") /\
  (forall failure,
     validate_log_id log = true ->
     load_ulog_file (get_log_filename log) = inr failure ->
     response = failure) /\
  (forall ulog,
     validate_log_id log = true ->
     load_ulog_file (get_log_filename log) = inl ulog ->
     (forall name, name ∈ required_names ->
                   found ulog name \/ missing ulog name) ->
     (exists name, name ∈ required_names /\ missing ulog name) ->
     response = CustomHTTPError 400 missing_topics_message) /\
  (forall ulog p,
     load_ulog_file (get_log_filename log) = inl ulog ->
     response = Rendered p ->
     validate_log_id log = true /\
     log_id p = log /\ bing_api_key p = bing /\ cesium_api_key p = cesium).
Proof.
  intros response. subst response. unfold get.
  split; [| split; [| split]].
  - by intros ->.
  - by intros failure -> ->.
  - intros ulog -> -> Hall Hone. cbn [negb].
    destruct (required_topics_missing ulog Hall Hone) as (e & E & Hc).
    unfold serve. by rewrite E, Hc.
  - intros ulog p -> H.
    destruct (validate_log_id log); [| discriminate H].
    split; [reflexivity |]. cbn [negb] in H. unfold serve in H.
    destruct (required_topics ulog) as [[[gps_pos glob] attitude]|e].
    + destruct (page get_flight_mode_changes flight_modes_table bing cesium
                  log ulog gps_pos attitude) as [p'|e] eqn:Ep;
        [| discriminate H].
      injection H as <-. eapply page_identity, Ep.
    + destruct (caught e); discriminate H.
Qed.

Lemma get_responses_witness :
  let validate := fun id : string => negb (String.eqb id "") in
  let load := fun _ : string => @inl ULog response (Sample.ulog 4) in
  validate ""%string = false /\
  get validate (fun id => id) load (fun _ => Sample.flight_mode_changes)
    Sample.flight_modes_table "bing" "cesium" ""
  = HTTPError 400 "Invalid Parameter".
Proof.
  intros validate load. split; [reflexivity |].
  apply (proj1 (get_responses validate (fun id => id) load
                  (fun _ => Sample.flight_mode_changes)
                  Sample.flight_modes_table "bing"%string "cesium"%string
                  ""%string)).
  reflexivity.
Defined.

(** ** Takeoff index on any array *)

Lemma greater_length (a : ndarray) (k : Z) :
  length (greater a k) = array_len a.
Proof. destruct a; cbn [greater array_len]; apply length_map. Qed.

(** X13. The takeoff index can only fail on a GPS topic without a
    [fix_type] field, with [KeyError]. Otherwise, for integer and float
    arrays alike, it is the first index whose entry exceeds 2, which lies
    within the array, or 0 when no entry does; entries that are not a
    number never qualify. *)
Theorem takeoff_index_bounds (gps_pos : dataset) :
  (forall e,
     takeoff_index gps_pos = Raise e ->
     e = KeyError /\ gps_pos !! "fix_type"%string = None) /\
  (forall k,
     takeoff_index gps_pos = Ok k ->
     exists fix_type,
       gps_pos !! "fix_type"%string = Some fix_type /\
       (((k < array_len fix_type)%nat /\
         greater fix_type 2 !! k = Some true /\
         forall j, (j < k)%nat -> greater fix_type 2 !! j = Some false)
        \/ (k = 0%nat /\ forall j, greater fix_type 2 !! j <> Some true))) /\
  (forall l,
     gps_pos !! "fix_type"%string = Some (FloatArray l) ->
     Forall (fun x => Float.is_nan x = true) l ->
     takeoff_index gps_pos = Ok 0%nat).
Proof.
  unfold takeoff_index, field.
  destruct (gps_pos !! "fix_type"%string) as [a|] eqn:Ha; cbn [bind].
  - pose proof (nonzero_from_first 0 (greater a 2)) as Hnz.
    unfold nonzero.
    split; [discriminate |]. split.
    + intros k Hk. exists a. split; [done |].
      destruct (nonzero_from 0 (greater a 2)) as [|k' ks].
      * injection Hk as <-. by right.
      * injection Hk as <-. destruct Hnz as (_ & Htrue & Hbefore).
        rewrite Nat.sub_0_r in Htrue, Hbefore. left.
        split; [| by split].
        rewrite <- (greater_length a 2). by eapply lookup_lt_Some.
    + intros l [= ->] Hnan.
      destruct (nonzero_from 0 (greater (FloatArray l) 2)) as [|k ks];
        [done |].
      exfalso. destruct Hnz as (_ & Htrue & _).
      cbn [greater] in Htrue. rewrite list_lookup_fmap in Htrue.
      destruct (l !! (k - 0)%nat) as [x|] eqn:Hx; [| discriminate].
      rewrite Forall_lookup in Hnan. specialize (Hnan _ _ Hx).
      destruct x; try discriminate Hnan. discriminate Htrue.
  - split; [by intros e [= <-] |]. split; [discriminate |]. discriminate.
Qed.

Lemma takeoff_index_bounds_witness :
  takeoff_index Sample.gps_pos = Ok 2%nat /\
  exists fix_type,
    Sample.gps_pos !! "fix_type"%string = Some fix_type /\
    (((2 < array_len fix_type)%nat /\
      greater fix_type 2 !! 2%nat = Some true /\
      forall j, (j < 2)%nat -> greater fix_type 2 !! j = Some false)
     \/ (2%nat = 0%nat /\ forall j, greater fix_type 2 !! j <> Some true)).
Proof.
  split; [reflexivity |].
  apply (proj1 (proj2 (takeoff_index_bounds Sample.gps_pos)) 2%nat).
  reflexivity.
Defined.

(** ** A GPS topic without samples *)

Lemma getitem_out_of_range (a : ndarray) (i : nat) :
  (array_len a <= i)%nat -> getitem a i = Raise IndexError.
Proof.
  intros H. destruct a as [l|l]; cbn [getitem array_len] in *;
    by rewrite (lookup_ge_None_2 l i H).
Qed.

Lemma takeoff_index_some (gps_pos : dataset) (fix_type : ndarray) :
  gps_pos !! "fix_type"%string = Some fix_type ->
  exists k, takeoff_index gps_pos = Ok k.
Proof. intros H. unfold takeoff_index, field. rewrite H. by eexists. Qed.

(** X14. A GPS topic whose altitude array is empty cannot be rendered: the
    takeoff altitude is read at the takeoff index, which is 0 at least, and
    the request fails with an uncaught [IndexError]. *)
Theorem gps_without_samples
  (get_flight_mode_changes : ULog -> list (Z * Z))
  (flight_modes_table : gmap Z (string * string)) (bing cesium log : string)
  (ulog : ULog) (gps_pos vehicle_global_position attitude : dataset)
  (fix_type alt : ndarray) :
  required_topics ulog = Ok (gps_pos, vehicle_global_position, attitude) ->
  (forall n, n ∈ optional_topics -> found ulog n \/ missing ulog n) ->
  gps_pos !! "fix_type"%string = Some fix_type ->
  gps_pos !! "alt"%string = Some alt ->
  array_len alt = 0%nat ->
  serve get_flight_mode_changes flight_modes_table bing cesium log ulog
  = Uncaught IndexError.
Proof.
  intros Hreq Hopt Hfix Halt Hlen.
  destruct (takeoff_index_some gps_pos fix_type Hfix) as [k Hk].
  assert (Ha : takeoff_altitude gps_pos k = Raise IndexError).
  { unfold takeoff_altitude, sample, field. rewrite Halt. cbn [bind].
    rewrite getitem_out_of_range by lia. reflexivity. }
  unfold serve. rewrite Hreq.
  assert (Hpage : page get_flight_mode_changes flight_modes_table bing cesium
                    log ulog gps_pos attitude = Raise IndexError);
    [| by rewrite Hpage].
  unfold page. unfold optional_topics in Hopt.
  repeat
    (match goal with
     | |- bind (optional_topic ulog ?n) _ = _ =>
         let m := fresh "m" in
         let E := fresh "E" in
         destruct (optional_topic_settled ulog n
                     (Hopt n ltac:(repeat constructor))) as [m E];
         rewrite E; cbn [bind]
     end).
  rewrite Hk. cbn [bind]. rewrite Ha. reflexivity.
Qed.

Lemma gps_without_samples_witness :
  let empty_gps : dataset :=
    {[ "fix_type"%string := IntArray []; "alt"%string := IntArray [] ]} in
  let ulog := with_topic "vehicle_gps_position" empty_gps (Sample.ulog 4) in
  required_topics ulog = Ok (empty_gps, ∅, Sample.attitude) /\
  Sample.serve ulog = Uncaught IndexError.
Proof.
  intros empty_gps ulog.
  assert (Hreq : required_topics ulog = Ok (empty_gps, ∅, Sample.attitude))
    by reflexivity.
  split; [exact Hreq |].
  apply (gps_without_samples (fun _ => Sample.flight_mode_changes)
           Sample.flight_modes_table "bing"%string "cesium"%string
           "sample"%string ulog empty_gps ∅ Sample.attitude
           (IntArray []) (IntArray []) Hreq).
  - intros n Hn. unfold optional_topics in Hn.
    repeat (apply elem_of_cons in Hn as [-> | Hn]);
      [| | | | | | | | by inversion Hn];
      first [ left; eexists; reflexivity
            | right; exists IndexError; split; reflexivity ].
  - reflexivity.
  - reflexivity.
  - reflexivity.
Defined.

(** ** Actuator output fields *)




(** ** Flight-mode records, event by event *)

(** X16. The flight-mode series holds one record per mode change, in the
    order of the changes: the record of a change is its shifted timestamp
    and the label of its mode, empty for a code the table does not
    hold. *)
Theorem flight_mode_series_in_order (table : gmap Z (string * string))
  (flight_mode_changes : list (Z * Z)) (utc_offset : Z)
  (rs : list (string * string)) :
  flight_mode_records table flight_mode_changes utc_offset = Ok rs ->
  length rs = length flight_mode_changes /\
  forall i t mode,
    flight_mode_changes !! i = Some (t, mode) ->
    exists dt,
      utc_datetime (SInt (t + utc_offset)) = Ok dt /\
      rs !! i = Some (Time.isoformat dt,
                      match table !! mode with
                      | Some (mode_name, _) => mode_name
                      | None => EmptyString
                      end).
Proof.
  intros H. unfold flight_mode_records in H. split.
  - by apply for_each_length in H.
  - intros i t mode Hi.
    destruct (for_each_lookup _ _ _ i (t, mode) H Hi) as (r & Hr & Hrec).
    rewrite flight_mode_record_label in Hrec.
    apply bind_ok in Hrec as (dt & Hdt & Hrec). injection Hrec as <-.
    exists dt. split; [exact Hdt |]. rewrite Hr. do 2 f_equal.
    unfold mode_style. by destruct (table !! mode) as [[name color]|].
Qed.

Lemma flight_mode_series_in_order_witness :
  exists rs,
    flight_mode_records Sample.flight_modes_table Sample.flight_mode_changes
      Sample.epoch = Ok rs /\
    length rs = length Sample.flight_mode_changes /\
    forall i t mode,
      Sample.flight_mode_changes !! i = Some (t, mode) ->
      exists dt,
        utc_datetime (SInt (t + Sample.epoch)) = Ok dt /\
        rs !! i = Some (Time.isoformat dt,
                        match Sample.flight_modes_table !! mode with
                        | Some (mode_name, _) => mode_name
                        | None => EmptyString
                        end).
Proof.
  destruct (flight_mode_records Sample.flight_modes_table
              Sample.flight_mode_changes Sample.epoch) as [rs|e] eqn:E;
    [| vm_compute in E; discriminate E].
  exists rs. split; [reflexivity |].
  exact (flight_mode_series_in_order Sample.flight_modes_table
           Sample.flight_mode_changes Sample.epoch rs E).
Defined.

(** ** The two gates *)

(** X17. The truth-value gate of the manual control series and the
    [is not None] gate of the other series differ on the empty mapping
    only: for every other value of the topic, absent or loaded, manual
    control is serialised exactly as an [is not None] gate would. *)
Theorem gates_differ_on_empty_only (m : option dataset) (utc_offset : Z) :
  m <> Some ∅ ->
  manual_control_setpoint_records m utc_offset
  = if_not_none m (series_record Manual_control utc_offset).
Proof.
  intros Hm. destruct m as [d|]; [| reflexivity].
  cbn [manual_control_setpoint_records if_not_none].
  destruct (truthy d) eqn:Ht; [reflexivity |].
  apply truthy_false_empty in Ht. by subst d.
Qed.

Lemma gates_differ_on_empty_only_witness :
  Some Sample.vehicle_rates_setpoint <> Some ∅ /\
  manual_control_setpoint_records (Some Sample.vehicle_rates_setpoint)
    Sample.epoch
  = if_not_none (Some Sample.vehicle_rates_setpoint)
      (series_record Manual_control Sample.epoch).
Proof.
  assert (H : Some Sample.vehicle_rates_setpoint <> Some (∅ : dataset)).
  { intros E.
    pose proof (f_equal (fun o : option dataset =>
                           match o with
                           | Some d => d !! "roll"%string
                           | None => None
                           end) E) as F.
    vm_compute in F. discriminate F. }
  split; [exact H |].
  exact (gates_differ_on_empty_only (Some Sample.vehicle_rates_setpoint)
           Sample.epoch H).
Defined.
